(** * Binance futures trading bot: validation and order submission

    A shallow embedding of [bot/validators.py], [bot/orders.py] and
    [bot/client.py], with the properties of the design document proved
    about it.

    Python values are an inductive type, a [float] is an IEEE 754 binary64
    value ([spec_float], precision 53, exponent bound 1024), a [dict] with
    string keys is a [gmap string _], an f-string is the list of its
    pieces, and the two effects of the program, writing log records and
    sending requests to the exchange, are threaded through a small
    state-and-exception monad. *)

From Stdlib Require Import ZArith String Ascii List Bool SpecFloat Lia.
From stdpp Require Import base option gmap strings.

Import ListNotations.
Local Open Scope string_scope.
Local Open Scope Z_scope.
Local Set Warnings "-register-all".

(* ===================================================================== *)
(** * Python values *)
(* ===================================================================== *)

(** The values the five command-line fields can hold. A [str] is modelled
    over the ASCII repertoire: the case mapping and the whitespace test
    below are Python's on code points below 128, and leave any other
    character alone. *)
Inductive pyval : Type :=
| PyNone
| PyBool (b : bool)
| PyInt (z : Z)
| PyFloat (f : spec_float)
| PyStr (s : string)
| PyList (l : list pyval).

Module Py.

(** An f-string is kept as the list of its pieces; how [format] renders a
    value is left symbolic. *)
Inductive piece : Type :=
| Lit (s : string)        (* literal text of an f-string *)
| Val (v : pyval)         (* {v}: a formatted value *)
| ValDict (d : gmap string pyval)  (* {d}: a formatted dict *)
| TypeOf (v : pyval).     (* {type(v)} *)

Definition fstring : Type := list piece.

(** Exceptions. [ValueError] carries its message; the last constructor
    stands for whatever else the exchange library raises. *)
Inductive exn : Type :=
| ValueError (msg : fstring)
| TypeError
| OverflowError
| BinanceAPIException (status_code : Z) (message : string)
| BinanceRequestException (message : string)
| OtherException (message : string).

(** [str(e)] *)
Definition exn_str (e : exn) : fstring :=
  match e with
  | ValueError msg => msg
  | TypeError => [Lit "float() argument must be a string or a real number"]
  | OverflowError => [Lit "int too large to convert to float"]
  | BinanceAPIException c m =>
      [Lit "APIError(code="; Val (PyInt c); Lit "): "; Lit m]
  | BinanceRequestException m => [Lit "BinanceRequestException: "; Lit m]
  | OtherException m => [Lit m]
  end.

(** [isinstance(e, ValueError)] *)
Definition is_ValueError (e : exn) : bool :=
  match e with ValueError _ => true | _ => false end.

(** ** Floats *)

Definition prec : Z := 53.
Definition emax : Z := 1024.

Definition fzero : spec_float := S754_zero false.

(** The binary64 value the literal [0.001] denotes. *)
Definition f_0_001 : spec_float := S754_finite false 4611686018427388 (-62).

(** [x <= 0] and [0 < x] on floats; both are false on NaN. *)
Definition float_le_zero (x : spec_float) : bool := SFleb x fzero.
Definition float_is_positive (x : spec_float) : bool := SFltb fzero x.

(** The nearest binary64 value of [m * 10^e], ties to even, as
    [float(str)] computes it; out of range gives an infinity, too small
    gives a zero. *)
Definition float_of_decimal (neg : bool) (m : Z) (e : Z) : spec_float :=
  match m with
  | Zpos p =>
      match e with
      | Zneg d =>
          let '(q, e', l) :=
            SFdiv_core_binary prec emax (Zpos p) 0 (Z.pow_pos 10 d) 0 in
          binary_round_aux prec emax neg q e' l
      | _ => binary_normalize prec emax
               (if neg then - (Zpos p * 10 ^ e) else Zpos p * 10 ^ e) 0 false
      end
  | _ => S754_zero neg
  end.

(** ** Strings *)

Definition code (c : ascii) : nat := nat_of_ascii c.

Definition in_range (lo hi : nat) (c : ascii) : bool :=
  (Nat.leb lo (code c) && Nat.leb (code c) hi)%bool.

Definition is_digit (c : ascii) : bool := in_range 48 57 c.
Definition is_upper (c : ascii) : bool := in_range 65 90 c.
Definition is_lower (c : ascii) : bool := in_range 97 122 c.

(** [c.isspace()] for an ASCII character: tab, newline, vertical tab, form
    feed, carriage return, the four separators 0x1c..0x1f, and space.
    Python also counts some characters outside ASCII (the no-break space
    among them), which this test leaves alone. *)
Definition isspace (c : ascii) : bool :=
  (in_range 9 13 c || in_range 28 32 c)%bool.

Definition upper_char (c : ascii) : ascii :=
  if is_lower c then ascii_of_nat (code c - 32) else c.

(** [s.upper()], on ASCII text. Outside ASCII Python maps more (the sharp
    s becomes SS, the long s becomes S); what is proved below about
    symbols is stated through [upper] and [strip] themselves, or for
    strings that [is_ascii] holds of. *)
Fixpoint upper (s : string) : string :=
  match s with
  | EmptyString => EmptyString
  | String c r => String (upper_char c) (upper r)
  end.

Fixpoint lstrip (s : string) : string :=
  match s with
  | EmptyString => EmptyString
  | String c r => if isspace c then lstrip r else s
  end.

Fixpoint rstrip (s : string) : string :=
  match s with
  | EmptyString => EmptyString
  | String c r =>
      match rstrip r with
      | EmptyString => if isspace c then EmptyString else String c EmptyString
      | r' => String c r'
      end
  end.

(** [s.strip()] *)
Definition strip (s : string) : string := rstrip (lstrip s).

(** [len(s)] *)
Definition len (s : string) : Z := Z.of_nat (String.length s).

(** The character class [[A-Z0-9]]. *)
Definition is_upper_alnum (c : ascii) : bool := (is_upper c || is_digit c)%bool.

(** The longest prefix of [s] made of characters satisfying [p], and what
    follows it. *)
Fixpoint span (p : ascii -> bool) (s : string) : string * string :=
  match s with
  | EmptyString => (EmptyString, EmptyString)
  | String c r =>
      if p c then let '(a, b) := span p r in (String c a, b)
      else (EmptyString, s)
  end.

(** [c.isalnum()] for an ASCII character, and its negation. *)
Definition is_alnum (c : ascii) : bool :=
  (is_upper c || is_lower c || is_digit c)%bool.

Definition non_alnum (c : ascii) : bool := negb (is_alnum c).

(** Some character of [s] satisfies [p]. *)
Fixpoint any_char (p : ascii -> bool) (s : string) : bool :=
  match s with
  | EmptyString => false
  | String c r => (p c || any_char p r)%bool
  end.

(** Every character of [s] is an ASCII character. *)
Definition is_ascii (s : string) : bool :=
  negb (any_char (fun c => Nat.leb 128 (code c)) s).

(** [re.match(r'^[A-Z0-9]+$', s)] as a truth value. The greedy [+] takes
    the longest run of the class; [$] then matches at the end of the
    string or just before a newline that ends it. *)
Definition re_match_upper_alnum (s : string) : bool :=
  let '(a, b) := span is_upper_alnum s in
  match a with
  | EmptyString => false
  | _ => (String.eqb b "" || String.eqb b (String (ascii_of_nat 10) ""))%bool
  end.

(** ** The [float] builtin *)

Definition digit_value (c : ascii) : Z := Z.of_nat (code c - 48).

(** The number a run of decimal digits denotes, most significant first. *)
Fixpoint digits_value (acc : Z) (s : string) : Z :=
  match s with
  | EmptyString => acc
  | String c r => digits_value (10 * acc + digit_value c) r
  end.

(** An optional sign: whether it is a minus, and the rest. *)
Definition take_sign (s : string) : bool * string :=
  match s with
  | String "+" r => (false, r)
  | String "-" r => (true, r)
  | _ => (false, s)
  end.

(** An optional sign and one of [inf], [infinity], [nan], in any case. *)
Definition parse_inf_or_nan (s : string) : option spec_float :=
  let '(neg, r) := take_sign s in
  let u := upper r in
  if (String.eqb u "INF" || String.eqb u "INFINITY")%bool
  then Some (S754_infinity neg)
  else if String.eqb u "NAN" then Some S754_nan
  else None.

(** A decimal literal, the whole string: an optional sign; digits with an
    optional point among them, at least one digit in all; optionally [e]
    or [E], an optional sign and at least one digit. *)
Definition parse_decimal (s : string) : option spec_float :=
  let '(neg, s1) := take_sign s in
  let '(ip, s2) := span is_digit s1 in
  let '(fp, s3) :=
    match s2 with
    | String "." r => span is_digit r
    | _ => (EmptyString, s2)
    end in
  let m := digits_value 0 (ip ++ fp) in
  if String.eqb (ip ++ fp) "" then None
  else
    match s3 with
    | EmptyString => Some (float_of_decimal neg m (- len fp))
    | String c r =>
        if (Ascii.eqb c "e" || Ascii.eqb c "E")%bool then
          let '(eneg, r1) := take_sign r in
          let '(ed, r2) := span is_digit r1 in
          if (negb (String.eqb ed "") && String.eqb r2 "")%bool then
            let x := digits_value 0 ed in
            Some (float_of_decimal neg m ((if eneg then - x else x) - len fp))
          else None
        else None
    end.

(** Underscores may only sit between two digits; [None] when one does
    not, else the string without them. [prev] is the previous character. *)
Fixpoint drop_underscores (prev : ascii) (s : string) : option string :=
  match s with
  | EmptyString => if Ascii.eqb prev "_" then None else Some EmptyString
  | String c r =>
      if Ascii.eqb c "_" then
        if is_digit prev then drop_underscores c r else None
      else if (Ascii.eqb prev "_" && negb (is_digit c))%bool then None
      else option_map (String c) (drop_underscores c r)
  end.

(** The whitespace [float] skips around an ASCII literal. *)
Definition is_c_space (c : ascii) : bool :=
  (in_range 9 13 c || Ascii.eqb c " ")%bool.

Fixpoint lskip (s : string) : string :=
  match s with
  | EmptyString => EmptyString
  | String c r => if is_c_space c then lskip r else s
  end.

Fixpoint rskip (s : string) : string :=
  match s with
  | EmptyString => EmptyString
  | String c r =>
      match rskip r with
      | EmptyString => if is_c_space c then EmptyString else String c EmptyString
      | r' => String c r'
      end
  end.

(** [float(s)] for a string of ASCII text: [None] is [ValueError]. The
    underscores go first, then the whitespace around the literal, which is
    read as a decimal literal or else as an infinity or a NaN. (Python
    also reads the decimal digits of other scripts; what is proved below
    about numbers is stated through the result of [float].) *)
Definition float_of_string (s : string) : option spec_float :=
  match drop_underscores "000" s with
  | None => None
  | Some t =>
      let t := rskip (lskip t) in
      match parse_decimal t with
      | Some f => Some f
      | None => parse_inf_or_nan t
      end
  end.

(** [float(z)] for an integer: the nearest binary64 value, or
    [OverflowError] when that is out of range. *)
Definition float_of_int (z : Z) : exn + spec_float :=
  match binary_normalize prec emax z 0 false with
  | S754_infinity _ => inl OverflowError
  | f => inr f
  end.

(** [float(v)] *)
Definition float (v : pyval) : exn + spec_float :=
  match v with
  | PyFloat f => inr f
  | PyInt z => float_of_int z
  | PyBool b => float_of_int (if b then 1 else 0)
  | PyStr s =>
      match float_of_string s with
      | Some f => inr f
      | None =>
          inl (ValueError [Lit "could not convert string to float: "; Val v])
      end
  | PyNone | PyList _ => inl TypeError
  end.

(** [bool(v)], the truth value [not v] negates. *)
Definition truthy (v : pyval) : bool :=
  match v with
  | PyNone => false
  | PyBool b => b
  | PyInt z => negb (z =? 0)
  | PyFloat f => negb (SFeqb f fzero)
  | PyStr s => negb (String.eqb s "")
  | PyList l => match l with [] => false | _ => true end
  end.

(** [v == s] for a string literal [s]. *)
Definition eq_str (v : pyval) (s : string) : bool :=
  match v with
  | PyStr t => String.eqb t s
  | _ => false
  end.

(** [isinstance(v, str)] *)
Definition isinstance_str (v : pyval) : bool :=
  match v with PyStr _ => true | _ => false end.

(** The characters of a [str] value (of no use on another value, which
    has no [upper] method). *)
Definition chars (v : pyval) : string :=
  match v with PyStr s => s | _ => "" end.

(** [v is None] *)
Definition is_None (v : pyval) : bool :=
  match v with PyNone => true | _ => false end.

End Py.

(* ===================================================================== *)
(** * Effects: the log and the exchange *)
(* ===================================================================== *)

Module Eff.
Import Py.

Inductive level : Type := DEBUG | INFO | WARNING | ERROR.

(** One call of a logger method: the logger's name (the module that owns
    it), the level and the message. *)
Record log_record : Type := LogRecord {
  log_name : string;
  log_level : level;
  log_message : fstring
}.

(** Keyword arguments of a call, in the order they are written. *)
Definition kwargs : Type := list (string * pyval).

(** What the program has done so far: the records logged, oldest first,
    and the requests handed to the exchange library's
    [futures_create_order], oldest first. *)
Record world : Type := World {
  logs : list log_record;
  requests : list kwargs
}.

Definition world0 : world := World [] [].

Inductive outcome (A : Type) : Type :=
| Ok (a : A)
| Raise (e : exn).
Arguments Ok {A} a.
Arguments Raise {A} e.

(** A computation: from the world before to an outcome and the world
    after. *)
Definition M (A : Type) : Type := world -> outcome A * world.

Definition ret {A} (a : A) : M A := fun w => (Ok a, w).

Definition raise {A} (e : exn) : M A := fun w => (Raise e, w).

Definition bind {A B} (m : M A) (k : A -> M B) : M B :=
  fun w =>
    match m w with
    | (Ok a, w') => k a w'
    | (Raise e, w') => (Raise e, w')
    end.

(** [try: m  except <sel> as e: h e]; an exception [sel] does not select
    passes through. *)
Definition try_except {A} (m : M A) (sel : exn -> bool) (h : exn -> M A) : M A :=
  fun w =>
    match m w with
    | (Ok a, w') => (Ok a, w')
    | (Raise e, w') => if sel e then h e w' else (Raise e, w')
    end.

(** A pure conversion that may raise. *)
Definition lift {A} (r : exn + A) : M A :=
  match r with
  | inl e => raise e
  | inr a => ret a
  end.

(** The world with one more record in the log. *)
Definition logged (name : string) (l : level) (msg : fstring) (w : world)
    : world :=
  World (logs w ++ [LogRecord name l msg])%list (requests w).

Definition log (name : string) (l : level) (msg : fstring) : M unit :=
  fun w => (Ok tt, logged name l msg w).

(** Whether a run succeeded, and the value it returned ([d] if it did
    not). *)
Definition is_ok {A} (r : outcome A * world) : bool :=
  match fst r with Ok _ => true | Raise _ => false end.

Definition value_of {A} (d : A) (r : outcome A * world) : A :=
  match fst r with Ok a => a | Raise _ => d end.

(** The computation raises, in some world. *)
Definition fails {A} (m : M A) : Prop :=
  exists w e w', m w = (Raise e, w').

(** The exchange library's [futures_create_order], called with keyword
    arguments [kw]: the request goes out, and the exchange answers with a response record or an
    exception. *)
Definition futures_create_order
    (exchange : kwargs -> exn + gmap string pyval) (kw : kwargs)
    : M (gmap string pyval) :=
  fun w =>
    let w' := World (logs w) (requests w ++ [kw])%list in
    match exchange kw with
    | inr r => (Ok r, w')
    | inl e => (Raise e, w')
    end.

(** A computation that only appends to the log: its outcome does not
    depend on the world it starts in, and no request goes out. *)
Definition log_only {A} (m : M A) : Prop :=
  forall w,
    m w = (fst (m world0),
           World (logs w ++ logs (snd (m world0)))%list (requests w)).

(** [d[k]] *)
Definition getitem (d : gmap string pyval) (k : string) : M pyval :=
  match d !! k with
  | Some v => ret v
  | None => raise (OtherException ("KeyError: " ++ k))
  end.

(** [d.get(k)] *)
Definition get (d : gmap string pyval) (k : string) : pyval :=
  default PyNone (d !! k).

End Eff.

Declare Scope py_scope.
Delimit Scope py_scope with py.
Notation "x <- m ;; k" := (Eff.bind m (fun x => k))
  (at level 100, m at next level, k at level 200, only parsing) : py_scope.
Notation "m ;; k" := (Eff.bind m (fun _ => k))
  (at level 100, k at level 200, only parsing) : py_scope.
Local Open Scope py_scope.

(* ===================================================================== *)
(** * bot/validators.py *)
(* ===================================================================== *)

Module Validators.
Import Py Eff.

Definition logger : level -> fstring -> M unit := log "bot.validators".

Definition validate_symbol (symbol : pyval) : M pyval :=
  if (negb (truthy symbol) || negb (isinstance_str symbol))%bool then
    logger WARNING [Lit "Invalid symbol type: "; TypeOf symbol] ;;
    raise (ValueError [Lit "Symbol must be a non-empty string"])
  else
    let symbol := strip (upper (chars symbol)) in
    if negb (re_match_upper_alnum symbol) then
      logger WARNING [Lit "Invalid symbol format: "; Val (PyStr symbol)] ;;
      raise (ValueError
               [Lit "Symbol must contain only alphanumeric characters, got: ";
                Val (PyStr symbol)])
    else if len symbol <? 2 then
      logger WARNING [Lit "Symbol too short: "; Val (PyStr symbol)] ;;
      raise (ValueError
               [Lit "Symbol must be at least 2 characters, got: ";
                Val (PyInt (len symbol))])
    else
      logger DEBUG [Lit "Symbol validated: "; Val (PyStr symbol)] ;;
      ret (PyStr symbol).

(** [x in (a, b)] for strings. *)
Definition in_pair (x a b : string) : bool :=
  (String.eqb x a || String.eqb x b)%bool.

Definition validate_side (side : pyval) : M pyval :=
  if (negb (truthy side) || negb (isinstance_str side))%bool then
    logger WARNING [Lit "Invalid side type: "; TypeOf side] ;;
    raise (ValueError [Lit "Side must be a non-empty string"])
  else
    let side := strip (upper (chars side)) in
    if negb (in_pair side "BUY" "SELL") then
      logger WARNING [Lit "Invalid side value: "; Val (PyStr side)] ;;
      raise (ValueError
               [Lit "Side must be 'BUY' or 'SELL', got: "; Val (PyStr side)])
    else
      logger DEBUG [Lit "Side validated: "; Val (PyStr side)] ;;
      ret (PyStr side).

Definition validate_order_type (order_type : pyval) : M pyval :=
  if (negb (truthy order_type) || negb (isinstance_str order_type))%bool then
    logger WARNING [Lit "Invalid order_type type: "; TypeOf order_type] ;;
    raise (ValueError [Lit "Order type must be a non-empty string"])
  else
    let order_type := strip (upper (chars order_type)) in
    if negb (in_pair order_type "MARKET" "LIMIT") then
      logger WARNING [Lit "Invalid order_type value: "; Val (PyStr order_type)] ;;
      raise (ValueError
               [Lit "Order type must be 'MARKET' or 'LIMIT', got: ";
                Val (PyStr order_type)])
    else
      logger DEBUG [Lit "Order type validated: "; Val (PyStr order_type)] ;;
      ret (PyStr order_type).

(** [except (TypeError, ValueError)] *)
Definition is_Type_or_ValueError (e : exn) : bool :=
  match e with
  | TypeError | ValueError _ => true
  | _ => false
  end.

Definition validate_quantity (quantity : pyval) : M pyval :=
  qty <- try_except (lift (float quantity)) is_Type_or_ValueError
           (fun _ =>
              logger WARNING [Lit "Invalid quantity format: "; Val quantity] ;;
              raise (ValueError
                       [Lit "Quantity must be a valid number, got: ";
                        Val quantity])) ;;
  if float_le_zero qty then
    logger WARNING [Lit "Invalid quantity value: "; Val (PyFloat qty)] ;;
    raise (ValueError [Lit "Quantity must be positive, got: "; Val (PyFloat qty)])
  else
    logger DEBUG [Lit "Quantity validated: "; Val (PyFloat qty)] ;;
    ret (PyFloat qty).

Definition validate_price (price order_type : pyval) : M pyval :=
  if eq_str order_type "LIMIT" then
    if is_None price then
      logger WARNING [Lit "Price is required for LIMIT orders"] ;;
      raise (ValueError [Lit "Price is required for LIMIT orders"])
    else
      px <- try_except (lift (float price)) is_Type_or_ValueError
              (fun _ =>
                 logger WARNING [Lit "Invalid price format: "; Val price] ;;
                 raise (ValueError
                          [Lit "Price must be a valid number, got: "; Val price])) ;;
      if float_le_zero px then
        logger WARNING [Lit "Invalid price value: "; Val (PyFloat px)] ;;
        raise (ValueError [Lit "Price must be positive, got: "; Val (PyFloat px)])
      else
        logger DEBUG [Lit "Price validated: "; Val (PyFloat px)] ;;
        ret (PyFloat px)
  else
    (if negb (is_None price) then
       logger WARNING
         [Lit "Price not required for MARKET orders, ignoring: "; Val price]
     else ret tt) ;;
    ret PyNone.

Definition validate_all_inputs
    (symbol side order_type quantity price : pyval) : M (gmap string pyval) :=
  logger INFO
    [Lit "Validating inputs - Symbol: "; Val symbol; Lit ", Side: "; Val side;
     Lit ", Type: "; Val order_type; Lit ", Qty: "; Val quantity;
     Lit ", Price: "; Val price] ;;
  try_except
    (v_symbol <- validate_symbol symbol ;;
     v_side <- validate_side side ;;
     v_order_type <- validate_order_type order_type ;;
     v_quantity <- validate_quantity quantity ;;
     let validated : gmap string pyval :=
       <["quantity" := v_quantity]>
         (<["order_type" := v_order_type]>
            (<["side" := v_side]> (<["symbol" := v_symbol]> ∅))) in
     t <- getitem validated "order_type" ;;
     v_price <- validate_price price t ;;
     let validated := <["price" := v_price]> validated in
     logger INFO [Lit "All inputs validated successfully"] ;;
     ret validated)
    is_ValueError
    (fun e =>
       logger ERROR (Lit "Validation failed: " :: exn_str e) ;;
       raise e).

End Validators.

(* ===================================================================== *)
(** * bot/client.py *)
(* ===================================================================== *)

Module Client.
Import Py Eff.

(** What [OrderService] asks of the client it is given. *)
Record client : Type := {
  place_market_order : pyval -> pyval -> pyval -> M (gmap string pyval);
  place_limit_order : pyval -> pyval -> pyval -> pyval -> M (gmap string pyval)
}.

Definition logger : level -> fstring -> M unit := log "bot.client".

Section BinanceClient.

(** How the exchange answers a request. *)
Variable exchange : kwargs -> exn + gmap string pyval.

(** The three [except] clauses of both methods: log by kind, re-raise. *)
Definition on_error (what : string) (e : exn) : M (gmap string pyval) :=
  match e with
  | BinanceAPIException status_code message =>
      logger ERROR
        [Lit ("API error placing " ++ what ++ " order: ");
         Val (PyInt status_code); Lit " - "; Lit message] ;;
      raise e
  | BinanceRequestException _ =>
      logger ERROR
        (Lit ("Network error placing " ++ what ++ " order: ") :: exn_str e) ;;
      raise e
  | _ =>
      logger ERROR
        (Lit ("Unexpected error placing " ++ what ++ " order: ") :: exn_str e) ;;
      raise e
  end.

Definition binance_place_market_order (symbol side quantity : pyval)
    : M (gmap string pyval) :=
  try_except
    (logger INFO
       [Lit "Placing MARKET order - Symbol: "; Val symbol; Lit ", Side: ";
        Val side; Lit ", Qty: "; Val quantity] ;;
     order <- futures_create_order exchange
                [("symbol", symbol); ("side", side); ("type", PyStr "MARKET");
                 ("quantity", quantity)] ;;
     logger INFO
       [Lit "Market order placed successfully. Order ID: ";
        Val (get order "orderId")] ;;
     logger DEBUG [Lit "Order response: "; ValDict order] ;;
     ret order)
    (fun _ => true)
    (on_error "market").

Definition binance_place_limit_order (symbol side quantity price : pyval)
    : M (gmap string pyval) :=
  try_except
    (logger INFO
       [Lit "Placing LIMIT order - Symbol: "; Val symbol; Lit ", Side: ";
        Val side; Lit ", Qty: "; Val quantity; Lit ", Price: "; Val price] ;;
     order <- futures_create_order exchange
                [("symbol", symbol); ("side", side); ("type", PyStr "LIMIT");
                 ("timeInForce", PyStr "GTC"); ("quantity", quantity);
                 ("price", price)] ;;
     logger INFO
       [Lit "Limit order placed successfully. Order ID: ";
        Val (get order "orderId")] ;;
     logger DEBUG [Lit "Order response: "; ValDict order] ;;
     ret order)
    (fun _ => true)
    (on_error "limit").

(** [BinanceClient], seen through the two methods [OrderService] uses. *)
Definition BinanceClient : client :=
  {| place_market_order := binance_place_market_order;
     place_limit_order := binance_place_limit_order |}.

End BinanceClient.

End Client.

(* ===================================================================== *)
(** * bot/orders.py *)
(* ===================================================================== *)

Module Orders.
Import Py Eff Validators Client.

Definition logger : level -> fstring -> M unit := log "bot.orders".

Definition format_order_summary (order_params : gmap string pyval) : M fstring :=
  symbol <- getitem order_params "symbol" ;;
  side <- getitem order_params "side" ;;
  order_type <- getitem order_params "order_type" ;;
  quantity <- getitem order_params "quantity" ;;
  let summary :=
    [Lit "Symbol="; Val symbol; Lit ", Side="; Val side; Lit ", Type=";
     Val order_type; Lit ", Quantity="; Val quantity] in
  if negb (is_None (get order_params "price")) then
    price <- getitem order_params "price" ;;
    ret (summary ++ [Lit ", Price="; Val price])%list
  else ret summary.

Definition format_order_response (order_details : gmap string pyval) : fstring :=
  [Lit "OrderID="; Val (get order_details "orderId");
   Lit ", Symbol="; Val (get order_details "symbol");
   Lit ", Side="; Val (get order_details "side");
   Lit ", Type="; Val (get order_details "type");
   Lit ", Status="; Val (get order_details "status");
   Lit ", ExecutedQty="; Val (get order_details "executedQty");
   Lit ", AvgPrice="; Val (get order_details "avgPrice");
   Lit ", Timestamp="; Val (get order_details "timestamp")].

Definition extract_order_details (response : gmap string pyval)
    : gmap string pyval :=
  list_to_map
    [("orderId", get response "orderId");
     ("symbol", get response "symbol");
     ("side", get response "side");
     ("type", get response "type");
     ("status", get response "status");
     ("executedQty", get response "executedQty");
     ("avgPrice", get response "avgPrice");
     ("timestamp", get response "updateTime")].

Section OrderService.

(** [self.client] *)
Variable self_client : client.

Definition place_order (symbol side order_type quantity price : pyval)
    : M (gmap string pyval) :=
  try_except
    (validated <- validate_all_inputs symbol side order_type quantity price ;;
     summary <- format_order_summary validated ;;
     logger INFO (Lit "Order request: " :: summary) ;;
     t <- getitem validated "order_type" ;;
     response <-
       (if eq_str t "MARKET" then
          v_symbol <- getitem validated "symbol" ;;
          v_side <- getitem validated "side" ;;
          v_quantity <- getitem validated "quantity" ;;
          place_market_order self_client v_symbol v_side v_quantity
        else
          v_symbol <- getitem validated "symbol" ;;
          v_side <- getitem validated "side" ;;
          v_quantity <- getitem validated "quantity" ;;
          v_price <- getitem validated "price" ;;
          place_limit_order self_client v_symbol v_side v_quantity v_price) ;;
     let order_details := extract_order_details response in
     let response_summary := format_order_response order_details in
     logger INFO (Lit "Order response: " :: response_summary) ;;
     ret order_details)
    (fun _ => true)
    (fun e =>
       if is_ValueError e then
         logger ERROR (Lit "Validation error: " :: exn_str e) ;;
         raise e
       else
         logger ERROR (Lit "Order placement failed: " :: exn_str e) ;;
         raise e).

End OrderService.

End Orders.

(* ===================================================================== *)
(** * Properties *)
(* ===================================================================== *)

Import Py Eff Validators Client Orders.

(** ** Computations that only log *)

Create HintDb log_only.

Lemma log_only_ret {A} (a : A) : log_only (ret a).
Proof. intros [l r]. unfold ret. simpl. by rewrite app_nil_r. Qed.

Lemma log_only_raise {A} (e : exn) : log_only (@raise A e).
Proof. intros [l r]. unfold raise. simpl. by rewrite app_nil_r. Qed.

Lemma log_only_log name l msg : log_only (log name l msg).
Proof. intros w. reflexivity. Qed.

Lemma log_only_lift {A} (r : exn + A) : log_only (lift r).
Proof. destruct r; [apply log_only_raise | apply log_only_ret]. Qed.

Lemma log_only_getitem d k : log_only (getitem d k).
Proof.
  unfold getitem. destruct (d !! k); [apply log_only_ret | apply log_only_raise].
Qed.

Lemma log_only_start {A} (m : M A) :
  log_only m -> requests (snd (m world0)) = [].
Proof.
  intros H. specialize (H world0). destruct (m world0) as [r [l0 r0]].
  simpl in *. congruence.
Qed.

Lemma log_only_bind {A B} (m : M A) (k : A -> M B) :
  log_only m -> (forall a, log_only (k a)) -> log_only (bind m k).
Proof.
  intros Hm Hk w. unfold bind.
  pose proof (log_only_start m Hm) as H0.
  rewrite (Hm w). destruct (m world0) as [[a | e] [l0 r0]]; simpl in *.
  - subst r0. rewrite (Hk a (World _ _)), (Hk a (World l0 [])).
    simpl. by rewrite app_assoc.
  - reflexivity.
Qed.

Lemma log_only_try_except {A} (m : M A) sel h :
  log_only m -> (forall e, log_only (h e)) -> log_only (try_except m sel h).
Proof.
  intros Hm Hh w. unfold try_except.
  pose proof (log_only_start m Hm) as H0.
  rewrite (Hm w). destruct (m world0) as [[a | e] [l0 r0]]; simpl in *.
  - reflexivity.
  - destruct (sel e); [| reflexivity].
    subst r0. rewrite (Hh e (World _ _)), (Hh e (World l0 [])).
    simpl. by rewrite app_assoc.
Qed.

#[export] Hint Resolve log_only_ret log_only_raise log_only_log log_only_lift
  log_only_getitem : log_only.

(** Goes through the binds and branches of a computation built from the
    operations above. *)
Ltac log_only_steps :=
  repeat first
    [ progress auto with log_only
    | apply log_only_bind; [| intros ?]
    | apply log_only_try_except; [| intros ?]
    | match goal with
      | |- log_only (if ?b then _ else _) => destruct b
      end ].

Lemma validate_symbol_log_only v : log_only (validate_symbol v).
Proof. unfold validate_symbol, Validators.logger. cbv zeta. log_only_steps. Qed.

Lemma validate_side_log_only v : log_only (validate_side v).
Proof. unfold validate_side, Validators.logger. cbv zeta. log_only_steps. Qed.

Lemma validate_order_type_log_only v : log_only (validate_order_type v).
Proof. unfold validate_order_type, Validators.logger. cbv zeta. log_only_steps. Qed.

Lemma validate_quantity_log_only v : log_only (validate_quantity v).
Proof. unfold validate_quantity, Validators.logger. log_only_steps. Qed.

Lemma validate_price_log_only p t : log_only (validate_price p t).
Proof. unfold validate_price, Validators.logger. log_only_steps. Qed.

#[export] Hint Resolve validate_symbol_log_only validate_side_log_only
  validate_order_type_log_only validate_quantity_log_only
  validate_price_log_only : log_only.

Lemma validate_all_inputs_log_only s sd t q p :
  log_only (validate_all_inputs s sd t q p).
Proof. unfold validate_all_inputs, Validators.logger. cbv zeta. log_only_steps. Qed.

(** The outcome of a computation that only logs is the same in every
    world, and it leaves the requests alone. *)
Lemma log_only_fst {A} (m : M A) w : log_only m -> fst (m w) = fst (m world0).
Proof. intros H. by rewrite (H w). Qed.

Lemma log_only_requests {A} (m : M A) w :
  log_only m -> requests (snd (m w)) = requests w.
Proof. intros H. by rewrite (H w). Qed.

(** A run that succeeded, spelled out. *)
Lemma run_ok {A} (d : A) (r : outcome A * world) :
  is_ok r = true -> r = (Ok (value_of d r), snd r).
Proof.
  unfold is_ok, value_of. destruct r as [[a | e] w]; simpl;
    [reflexivity | discriminate].
Qed.

(** ** Quantity and price *)

(** Unfolds the monad in a goal that runs a validator on a world. *)
Ltac run :=
  unfold Validators.logger, bind, try_except, lift, raise, ret, log; simpl.

Tactic Notation "run" "in" hyp(H) :=
  unfold Validators.logger, bind, try_except, lift, raise, ret, log in H;
  simpl in H.

(** [float] raises nothing but [TypeError], [ValueError] and, on an
    integer, [OverflowError]. *)
Lemma float_raises v e :
  float v = inl e ->
  e = TypeError \/ (exists m, e = ValueError m) \/
  (e = OverflowError /\ exists z, float v = float_of_int z).
Proof.
  destruct v as [| b | z | f | s | l]; simpl; intros H.
  - left. congruence.
  - right. right. split; [| eauto].
    unfold float_of_int in H.
    destruct (binary_normalize _ _ _ _ _); congruence.
  - right. right. split; [| eauto].
    unfold float_of_int in H.
    destruct (binary_normalize _ _ _ _ _); congruence.
  - discriminate.
  - right. left. destruct (float_of_string s); [discriminate |].
    injection H as <-. eauto.
  - left. congruence.
Qed.

(** C5. A quantity that [float] rejects as not a number (with [TypeError]
    or [ValueError]), or that converts to a float [<= 0], makes
    [validate_quantity] raise [ValueError]. *)
Theorem validate_quantity_rejects (quantity : pyval) (w : world) :
  (float quantity = inl TypeError \/
   (exists m, float quantity = inl (ValueError m)) \/
   (exists f, float quantity = inr f /\ float_le_zero f = true)) ->
  exists msg w', validate_quantity quantity w = (Raise (ValueError msg), w').
Proof.
  intros [H | [[m H] | [f [H Hle]]]]; unfold validate_quantity; run;
    rewrite H; simpl; [eauto | eauto |].
  rewrite Hle. simpl. eauto.
Qed.

Lemma validate_quantity_rejects_witness :
  exists msg w',
    validate_quantity (PyStr "-1") world0 = (Raise (ValueError msg), w').
Proof.
  apply (validate_quantity_rejects (PyStr "-1") world0).
  right. right. eexists. split; vm_compute; reflexivity.
Defined.

(** An integer too large for a float is neither: [float] raises
    [OverflowError], which [validate_quantity] lets through. *)
Example validate_quantity_huge_int :
  fst (validate_quantity (PyInt (10 ^ 400)) world0) = Raise OverflowError.
Proof. vm_compute. reflexivity. Qed.

(** C3. With the normalized type [LIMIT], a price that is [None], that
    [float] rejects as not a number, or that converts to a float [<= 0]
    makes [validate_price] raise [ValueError]; with the normalized type
    [MARKET], every price is accepted and the result is [None]. *)
Theorem validate_price_conditional (price : pyval) (w : world) :
  ((price = PyNone \/
    float price = inl TypeError \/
    (exists m, float price = inl (ValueError m)) \/
    (exists f, float price = inr f /\ float_le_zero f = true)) ->
   exists msg w',
     validate_price price (PyStr "LIMIT") w = (Raise (ValueError msg), w')) /\
  (exists w', validate_price price (PyStr "MARKET") w = (Ok PyNone, w')).
Proof.
  split.
  - intros H. unfold validate_price. simpl eq_str. cbv iota.
    destruct (is_None price) eqn:Hn; [run; eauto |].
    destruct H as [-> | [H | [[m H] | [f [H Hle]]]]]; [discriminate | | |];
      run; rewrite H; simpl; [eauto | eauto |].
    rewrite Hle. simpl. eauto.
  - unfold validate_price. simpl eq_str. cbv iota.
    destruct (is_None price); run; eauto.
Qed.

Lemma validate_price_conditional_witness :
  exists msg w',
    validate_price PyNone (PyStr "LIMIT") world0 = (Raise (ValueError msg), w').
Proof.
  apply (proj1 (validate_price_conditional PyNone world0)).
  left. reflexivity.
Defined.

(** [v == 'LIMIT'] holds of the string [LIMIT] alone. *)
Lemma eq_str_spec v s : eq_str v s = true <-> v = PyStr s.
Proof.
  destruct v; simpl; try (split; [discriminate | congruence]).
  rewrite String.eqb_eq. split; congruence.
Qed.

(** C9. Given any order type other than the exact string [LIMIT],
    [validate_price] takes the other branch: it raises nothing, returns
    [None] whatever the price, and logs at most the warning that the price
    is ignored. *)
Theorem validate_price_not_LIMIT (price order_type : pyval) (w : world) :
  order_type <> PyStr "LIMIT" ->
  validate_price price order_type w =
    (Ok PyNone,
     if is_None price then w
     else logged "bot.validators" WARNING
            [Lit "Price not required for MARKET orders, ignoring: "; Val price]
            w).
Proof.
  intros Hne. unfold validate_price.
  destruct (eq_str order_type "LIMIT") eqn:E.
  - apply eq_str_spec in E. contradiction.
  - destruct (is_None price); run; reflexivity.
Qed.

Lemma validate_price_not_LIMIT_witness :
  validate_price PyNone (PyStr "limit") world0 = (Ok PyNone, world0).
Proof.
  apply (validate_price_not_LIMIT PyNone (PyStr "limit") world0).
  discriminate.
Defined.

(** C10. The string [nan] converts to NaN, for which [qty <= 0] is false:
    [validate_quantity] accepts it and returns NaN, which is not a
    strictly positive number. *)
Theorem validate_quantity_accepts_nan (w : world) :
  float (PyStr "nan") = inr S754_nan /\
  float_le_zero S754_nan = false /\
  validate_quantity (PyStr "nan") w =
    (Ok (PyFloat S754_nan),
     logged "bot.validators" DEBUG
       [Lit "Quantity validated: "; Val (PyFloat S754_nan)] w) /\
  float_is_positive S754_nan = false.
Proof. repeat split. Qed.

(** ** Symbols *)

#[local] Arguments String.append !_ _ / : simpl nomatch.

(** Decides a fact about one character by running through all of them. *)
Ltac by_cases_on_char c :=
  destruct c as [[] [] [] [] [] [] [] []]; vm_compute; reflexivity.

Lemma isspace_upper_char c : isspace (upper_char c) = isspace c.
Proof. by_cases_on_char c. Qed.

Lemma upper_alnum_upper_char c : is_upper_alnum (upper_char c) = is_alnum c.
Proof. by_cases_on_char c. Qed.

Lemma newline_isspace : isspace (ascii_of_nat 10) = true.
Proof. reflexivity. Qed.

Lemma lstrip_upper s : lstrip (upper s) = upper (lstrip s).
Proof.
  induction s as [| c r IH]; simpl; [reflexivity |].
  rewrite isspace_upper_char. destruct (isspace c); [exact IH | reflexivity].
Qed.

Lemma rstrip_upper s : rstrip (upper s) = upper (rstrip s).
Proof.
  induction s as [| c r IH]; simpl; [reflexivity |].
  rewrite IH, isspace_upper_char.
  destruct (rstrip r); simpl; [destruct (isspace c) |]; reflexivity.
Qed.

(** Trimming and upper-casing commute. *)
Lemma strip_upper s : strip (upper s) = upper (strip s).
Proof. unfold strip. by rewrite lstrip_upper, rstrip_upper. Qed.

(** A character outside [[A-Za-z0-9]] is still outside [[A-Z0-9]] after
    upper-casing. *)
Lemma any_non_alnum_upper s :
  any_char non_alnum s = true ->
  any_char (fun c => negb (is_upper_alnum c)) (upper s) = true.
Proof.
  induction s as [| c r IH]; simpl; [discriminate |].
  unfold non_alnum at 1. rewrite upper_alnum_upper_char.
  destruct (is_alnum c); simpl; auto.
Qed.

(** What [span] leaves starts with a character that fails the test, when
    some character of the string fails it. *)
Lemma span_rest p s :
  any_char (fun c => negb (p c)) s = true ->
  exists a c r, span p s = (a, String c r) /\ s = a ++ String c r.
Proof.
  induction s as [| c r IH]; simpl; [discriminate |].
  destruct (p c) eqn:Hp; simpl.
  - intros H. destruct (IH H) as (a & c' & r' & Hs & Heq).
    rewrite Hs. exists (String c a), c', r'.
    split; [reflexivity | simpl; congruence].
  - intros _. exists EmptyString, c, r. split; reflexivity.
Qed.

(** A trimmed string does not end with whitespace. *)
Lemma rstrip_last x a c :
  rstrip x = a ++ String c EmptyString -> isspace c = false.
Proof.
  revert a. induction x as [| d r IH]; intros a; simpl.
  - destruct a; discriminate.
  - destruct (rstrip r) as [| e r'] eqn:Hr.
    + destruct (isspace d) eqn:Hd; [destruct a; discriminate |].
      destruct a as [| a0 a']; simpl; intros H.
      * congruence.
      * injection H as _ H. destruct a'; discriminate.
    + destruct a as [| a0 a']; simpl; intros H; [discriminate |].
      injection H as _ H. exact (IH a' H).
Qed.

(** The pattern rejects a trimmed string that has a character outside
    [[A-Z0-9]]. *)
Lemma re_match_rejects x :
  any_char (fun c => negb (is_upper_alnum c)) (rstrip x) = true ->
  re_match_upper_alnum (rstrip x) = false.
Proof.
  intros H. unfold re_match_upper_alnum.
  destruct (span_rest _ _ H) as (a & c & r & Hs & Heq). rewrite Hs.
  destruct a as [| a0 a']; [reflexivity |].
  simpl. destruct r as [| r0 r']; [| by destruct (Ascii.eqb c _)].
  destruct (Ascii.eqb_spec c (ascii_of_nat 10)) as [-> | Hc]; [| reflexivity].
  apply rstrip_last in Heq. rewrite newline_isspace in Heq. discriminate.
Qed.

(** C4, as amended. [validate_symbol] raises [ValueError] on a value that
    is not a string, on the empty string, on a string whose normalized
    form, upper-cased and then trimmed, still has a character outside
    [[A-Z0-9]], so in particular on an ASCII string that has a character
    outside [[A-Za-z0-9]] once the whitespace around it is trimmed, and
    on a string shorter than 2 characters after normalization. *)
Theorem validate_symbol_rejects (symbol : pyval) (w : world) :
  (isinstance_str symbol = false \/
   symbol = PyStr "" \/
   (exists s, symbol = PyStr s /\
      (any_char (fun c => negb (is_upper_alnum c)) (strip (upper s)) = true \/
       (is_ascii s = true /\ any_char non_alnum (strip s) = true) \/
       len (strip (upper s)) < 2))) ->
  exists msg w', validate_symbol symbol w = (Raise (ValueError msg), w').
Proof.
  intros H. unfold validate_symbol.
  destruct (negb (truthy symbol) || negb (isinstance_str symbol))%bool eqn:E;
    [run; eauto |].
  apply orb_false_iff in E as [Et Ei]. apply negb_false_iff in Et, Ei.
  destruct H as [H | [-> | (s & -> & H)]];
    [congruence | discriminate |].
  cbv zeta. change (chars (PyStr s)) with s.
  destruct H as [H | [[_ H] | H]].
  - assert (re_match_upper_alnum (strip (upper s)) = false) as ->.
    { unfold strip in *. by apply re_match_rejects. }
    run. eauto.
  - assert (re_match_upper_alnum (strip (upper s)) = false) as ->.
    { unfold strip in *. apply re_match_rejects.
      rewrite lstrip_upper, rstrip_upper. by apply any_non_alnum_upper. }
    run. eauto.
  - destruct (re_match_upper_alnum _); simpl; [| run; eauto].
    apply Z.ltb_lt in H. rewrite H. run. eauto.
Qed.

Lemma validate_symbol_rejects_witness :
  exists msg w',
    validate_symbol (PyStr "BTC-USDT") world0 = (Raise (ValueError msg), w').
Proof.
  apply (validate_symbol_rejects (PyStr "BTC-USDT") world0).
  right. right. exists "BTC-USDT". split; [reflexivity |].
  right. left. split; vm_compute; reflexivity.
Defined.

(** C4, as written, fails: the symbol [" BTC"] contains a space, which is
    not alphanumeric, and is accepted, the space being trimmed. *)
Lemma validate_symbol_accepts_padded :
  ~ (forall (s : string) (w : world),
       any_char non_alnum s = true ->
       exists e w', validate_symbol (PyStr s) w = (Raise e, w')).
Proof.
  intros H. destruct (H " BTC" world0 eq_refl) as (e & w' & Heq).
  vm_compute in Heq. discriminate.
Qed.

(** ** All five fields *)

(** The float the literal [0.001] denotes is the one [float] reads from
    the text [0.001]. *)
Example float_of_string_0_001 : float_of_string "0.001" = Some f_0_001.
Proof. vm_compute. reflexivity. Qed.

(** C8. The inputs [("btcusdt", "buy", "market", 0.001, None)] validate,
    and the result is exactly [{symbol: "BTCUSDT", side: "BUY",
    order_type: "MARKET", quantity: 0.001, price: None}]. *)
Theorem validate_all_inputs_round_trip (w : world) :
  fst (validate_all_inputs
         (PyStr "btcusdt") (PyStr "buy") (PyStr "market") (PyFloat f_0_001)
         PyNone w) =
  Ok (list_to_map
        [("symbol", PyStr "BTCUSDT"); ("side", PyStr "BUY");
         ("order_type", PyStr "MARKET"); ("quantity", PyFloat f_0_001);
         ("price", PyNone)]).
Proof.
  rewrite log_only_fst by apply validate_all_inputs_log_only.
  vm_compute. reflexivity.
Qed.

(** C7. [validate_all_inputs] runs the validators in the order symbol,
    side, order type, quantity, price, each in the world the one before
    left. When one raises, [validate_all_inputs] raises that very
    exception, and the world is the one that validator left, plus the
    record of the [except] clause: nothing of a later validator is run. *)
Theorem validate_all_inputs_first_failure
    (symbol side order_type quantity price : pyval) (w : world) :
  let w0 :=
    logged "bot.validators" INFO
      [Lit "Validating inputs - Symbol: "; Val symbol; Lit ", Side: "; Val side;
       Lit ", Type: "; Val order_type; Lit ", Qty: "; Val quantity;
       Lit ", Price: "; Val price] w in
  let closed e w' :=
    if is_ValueError e
    then logged "bot.validators" ERROR
           (Lit "Validation failed: " :: exn_str e) w'
    else w' in
  let all := validate_all_inputs symbol side order_type quantity price w in
  (forall e w1,
     validate_symbol symbol w0 = (Raise e, w1) ->
     all = (Raise e, closed e w1)) /\
  (forall v1 w1 e w2,
     validate_symbol symbol w0 = (Ok v1, w1) ->
     validate_side side w1 = (Raise e, w2) ->
     all = (Raise e, closed e w2)) /\
  (forall v1 w1 v2 w2 e w3,
     validate_symbol symbol w0 = (Ok v1, w1) ->
     validate_side side w1 = (Ok v2, w2) ->
     validate_order_type order_type w2 = (Raise e, w3) ->
     all = (Raise e, closed e w3)) /\
  (forall v1 w1 v2 w2 v3 w3 e w4,
     validate_symbol symbol w0 = (Ok v1, w1) ->
     validate_side side w1 = (Ok v2, w2) ->
     validate_order_type order_type w2 = (Ok v3, w3) ->
     validate_quantity quantity w3 = (Raise e, w4) ->
     all = (Raise e, closed e w4)) /\
  (forall v1 w1 v2 w2 v3 w3 v4 w4 e w5,
     validate_symbol symbol w0 = (Ok v1, w1) ->
     validate_side side w1 = (Ok v2, w2) ->
     validate_order_type order_type w2 = (Ok v3, w3) ->
     validate_quantity quantity w3 = (Ok v4, w4) ->
     validate_price price v3 w4 = (Raise e, w5) ->
     all = (Raise e, closed e w5)).
Proof.
  intros w0 closed all. subst w0 closed all.
  unfold validate_all_inputs, Validators.logger, bind, try_except, log, raise.
  cbv zeta.
  repeat split; intros.
  all: repeat match goal with
              | H : validate_symbol _ _ = _ |- _ => rewrite H; clear H
              | H : validate_side _ _ = _ |- _ => rewrite H; clear H
              | H : validate_order_type _ _ = _ |- _ => rewrite H; clear H
              | H : validate_quantity _ _ = _ |- _ => rewrite H; clear H
              end.
  all: try (destruct (is_ValueError e); reflexivity).
  unfold getitem.
  rewrite lookup_insert_ne, lookup_insert_eq by done.
  unfold ret.
  match goal with H : validate_price _ _ _ = _ |- _ => rewrite H end.
  destruct (is_ValueError e); reflexivity.
Qed.

Lemma validate_all_inputs_first_failure_witness :
  fst (validate_all_inputs
         (PyStr "BTCUSDT") (PyStr "HOLD") (PyStr "") (PyStr "x") PyNone world0) =
  Raise (ValueError [Lit "Side must be 'BUY' or 'SELL', got: "; Val (PyStr "HOLD")]).
Proof.
  pose proof
    (validate_all_inputs_first_failure
       (PyStr "BTCUSDT") (PyStr "HOLD") (PyStr "") (PyStr "x") PyNone world0)
    as H.
  cbv zeta in H. destruct H as (_ & H & _).
  erewrite H; [reflexivity | vm_compute; reflexivity | vm_compute; reflexivity].
Defined.

(** ** The normalized response *)

(** C6. Whatever the response holds, [extract_order_details] returns a
    record of exactly eight fields, each the response's field of the same
    name ([timestamp] being the response's [updateTime]), and [None] where
    the response has no such field. *)
Theorem extract_order_details_projection (response : gmap string pyval) :
  let d := extract_order_details response in
  d !! "orderId" = Some (default PyNone (response !! "orderId")) /\
  d !! "symbol" = Some (default PyNone (response !! "symbol")) /\
  d !! "side" = Some (default PyNone (response !! "side")) /\
  d !! "type" = Some (default PyNone (response !! "type")) /\
  d !! "status" = Some (default PyNone (response !! "status")) /\
  d !! "executedQty" = Some (default PyNone (response !! "executedQty")) /\
  d !! "avgPrice" = Some (default PyNone (response !! "avgPrice")) /\
  d !! "timestamp" = Some (default PyNone (response !! "updateTime")) /\
  dom d =
    list_to_set
      ["orderId"; "symbol"; "side"; "type"; "status"; "executedQty";
       "avgPrice"; "timestamp"].
Proof.
  cbv zeta. unfold extract_order_details, get.
  repeat split; vm_compute; reflexivity.
Qed.

(** A response without [avgPrice] normalizes to a record whose [avgPrice]
    is [None]. *)
Example extract_order_details_no_avgPrice :
  extract_order_details
    (list_to_map [("orderId", PyInt 7); ("status", PyStr "NEW")])
    !! "avgPrice" = Some PyNone.
Proof. vm_compute. reflexivity. Qed.

(** ** Placing an order *)

(** Two runs of a computation that only logs have the same outcome. *)
Lemma log_only_agree {A} (m : M A) w1 r1 w1' w2 r2 w2' :
  log_only m -> m w1 = (r1, w1') -> m w2 = (r2, w2') -> r1 = r2.
Proof.
  intros H H1 H2.
  pose proof (log_only_fst m w1 H) as F1. pose proof (log_only_fst m w2 H) as F2.
  rewrite H1 in F1. rewrite H2 in F2. simpl in *. congruence.
Qed.

(** A validator that succeeds in one world does not fail in another. *)
Lemma ok_not_fails {A} (m : M A) w a w' :
  log_only m -> m w = (Ok a, w') -> fails m -> False.
Proof.
  intros H Hok (w2 & e & w2' & Hf).
  pose proof (log_only_agree m _ _ _ _ _ _ H Hok Hf). discriminate.
Qed.

(** If one of the five validations fails, [validate_all_inputs] raises. *)
Lemma validate_all_inputs_raises symbol side order_type quantity price w :
  (fails (validate_symbol symbol) \/
   fails (validate_side side) \/
   fails (validate_order_type order_type) \/
   fails (validate_quantity quantity) \/
   (exists t w1 w2,
      validate_order_type order_type w1 = (Ok t, w2) /\
      fails (validate_price price t))) ->
  exists e w', validate_all_inputs symbol side order_type quantity price w =
               (Raise e, w').
Proof.
  intros H.
  unfold validate_all_inputs, Validators.logger, bind, try_except, log, raise.
  cbv zeta.
  match goal with |- context [validate_symbol symbol ?w0] =>
    destruct (validate_symbol symbol w0) as [[v1 | e] w1] eqn:E1
  end; [| destruct (is_ValueError e); eauto].
  destruct (validate_side side w1) as [[v2 | e] w2] eqn:E2;
    [| destruct (is_ValueError e); eauto].
  destruct (validate_order_type order_type w2) as [[v3 | e] w3] eqn:E3;
    [| destruct (is_ValueError e); eauto].
  destruct (validate_quantity quantity w3) as [[v4 | e] w4] eqn:E4;
    [| destruct (is_ValueError e); eauto].
  unfold getitem. rewrite lookup_insert_ne, lookup_insert_eq by done.
  unfold ret.
  destruct (validate_price price v3 w4) as [[v5 | e] w5] eqn:E5;
    [| destruct (is_ValueError e); eauto].
  exfalso.
  destruct H as [H | [H | [H | [H | (t & u1 & u2 & Ht & H)]]]].
  - eapply ok_not_fails; [| exact E1 | exact H]. auto with log_only.
  - eapply ok_not_fails; [| exact E2 | exact H]. auto with log_only.
  - eapply ok_not_fails; [| exact E3 | exact H]. auto with log_only.
  - eapply ok_not_fails; [| exact E4 | exact H]. auto with log_only.
  - assert (Ok t = Ok v3) as Heq
        by (eapply log_only_agree; [| exact Ht | exact E3]; auto with log_only).
    injection Heq as ->.
    eapply ok_not_fails; [| exact E5 | exact H]. auto with log_only.
Qed.

(** C1. If one of the five validations fails, [place_order] raises the
    exception [validate_all_inputs] raised, whatever client it holds, and
    that client is not called: the outcome and the world are the same for
    every client, and no request has gone out. *)
Theorem place_order_validation_failure
    (symbol side order_type quantity price : pyval) (w : world) :
  (fails (validate_symbol symbol) \/
   fails (validate_side side) \/
   fails (validate_order_type order_type) \/
   fails (validate_quantity quantity) \/
   (exists t w1 w2,
      validate_order_type order_type w1 = (Ok t, w2) /\
      fails (validate_price price t))) ->
  exists e w1 w',
    validate_all_inputs symbol side order_type quantity price w =
      (Raise e, w1) /\
    w' = logged "bot.orders" ERROR
           (Lit (if is_ValueError e then "Validation error: "
                 else "Order placement failed: ") :: exn_str e) w1 /\
    (forall c : client,
       place_order c symbol side order_type quantity price w = (Raise e, w')) /\
    requests w' = requests w.
Proof.
  intros H.
  destruct (validate_all_inputs_raises _ _ _ _ _ w H) as (e & w1 & Hall).
  exists e, w1. eexists. split; [exact Hall |]. split; [reflexivity |]. split.
  - intros c. unfold place_order, bind, try_except. rewrite Hall.
    destruct (is_ValueError e); reflexivity.
  - simpl.
    pose proof (log_only_requests _ w
                  (validate_all_inputs_log_only
                     symbol side order_type quantity price)) as R.
    rewrite Hall in R. exact R.
Qed.

Lemma place_order_validation_failure_witness :
  exists e w1 w',
    validate_all_inputs
      (PyStr "BTCUSDT") (PyStr "BUY") (PyStr "LIMIT") (PyStr "0.5") PyNone
      world0 = (Raise e, w1) /\
    w' = logged "bot.orders" ERROR
           (Lit (if is_ValueError e then "Validation error: "
                 else "Order placement failed: ") :: exn_str e) w1 /\
    (forall c : client,
       place_order c
         (PyStr "BTCUSDT") (PyStr "BUY") (PyStr "LIMIT") (PyStr "0.5") PyNone
         world0 = (Raise e, w')) /\
    requests w' = requests world0.
Proof.
  apply (place_order_validation_failure
           (PyStr "BTCUSDT") (PyStr "BUY") (PyStr "LIMIT") (PyStr "0.5") PyNone
           world0).
  right. right. right. right.
  exists (PyStr "LIMIT"), world0. eexists. split; [vm_compute; reflexivity |].
  exists world0. eexists. eexists. vm_compute. reflexivity.
Defined.

(** A validated order type is one of the two upper-case names. *)
Lemma validate_order_type_ok order_type w t w' :
  validate_order_type order_type w = (Ok t, w') ->
  t = PyStr "MARKET" \/ t = PyStr "LIMIT".
Proof.
  unfold validate_order_type. cbv zeta.
  destruct (negb (truthy order_type) || negb (isinstance_str order_type))%bool;
    [run; discriminate |].
  destruct (in_pair _ "MARKET" "LIMIT") eqn:E; simpl; [| run; discriminate].
  run. intros [= <- _].
  apply orb_true_iff in E as [E | E]; apply String.eqb_eq in E; rewrite E; auto.
Qed.

(** What [validate_all_inputs] returns: the five normalized fields, the
    type being [MARKET] or [LIMIT] and the price of a [MARKET] order
    [None]. *)
Lemma validated_shape symbol side order_type quantity price w v w1 :
  validate_all_inputs symbol side order_type quantity price w = (Ok v, w1) ->
  exists s sd t q p,
    v = <["price" := p]>
          (<["quantity" := q]>
             (<["order_type" := t]> (<["side" := sd]> (<["symbol" := s]> ∅)))) /\
    (t = PyStr "MARKET" /\ p = PyNone \/ t = PyStr "LIMIT").
Proof.
  unfold validate_all_inputs, Validators.logger, bind, try_except, log, raise.
  cbv zeta.
  match goal with |- context [validate_symbol symbol ?w0] =>
    destruct (validate_symbol symbol w0) as [[v1 | e] w1'] eqn:E1
  end; [| destruct (is_ValueError e); discriminate].
  destruct (validate_side side w1') as [[v2 | e] w2] eqn:E2;
    [| destruct (is_ValueError e); discriminate].
  destruct (validate_order_type order_type w2) as [[v3 | e] w3] eqn:E3;
    [| destruct (is_ValueError e); discriminate].
  destruct (validate_quantity quantity w3) as [[v4 | e] w4] eqn:E4;
    [| destruct (is_ValueError e); discriminate].
  unfold getitem. rewrite lookup_insert_ne, lookup_insert_eq by done.
  unfold ret.
  destruct (validate_price price v3 w4) as [[v5 | e] w5] eqn:E5;
    [| destruct (is_ValueError e); discriminate].
  intros [= <- _]. exists v1, v2, v3, v4, v5. split; [reflexivity |].
  destruct (validate_order_type_ok _ _ _ _ E3) as [-> | ->]; [left | by right].
  split; [reflexivity |].
  unfold validate_price in E5. simpl eq_str in E5. cbv iota in E5.
  destruct (is_None price); run in E5; congruence.
Qed.

(** Each method of [BinanceClient] sends exactly one request, whether
    the exchange answers or raises. *)
Lemma binance_place_market_order_requests exchange s sd q w :
  requests (snd (binance_place_market_order exchange s sd q w)) =
  (requests w ++
   [[("symbol", s); ("side", sd); ("type", PyStr "MARKET"); ("quantity", q)]])%list.
Proof.
  unfold binance_place_market_order, try_except, bind, futures_create_order,
    Client.logger, log.
  simpl. destruct (exchange _) as [e | r]; [destruct e |]; reflexivity.
Qed.

Lemma binance_place_limit_order_requests exchange s sd q p w :
  requests (snd (binance_place_limit_order exchange s sd q p w)) =
  (requests w ++
   [[("symbol", s); ("side", sd); ("type", PyStr "LIMIT");
     ("timeInForce", PyStr "GTC"); ("quantity", q); ("price", p)]])%list.
Proof.
  unfold binance_place_limit_order, try_except, bind, futures_create_order,
    Client.logger, log.
  simpl. destruct (exchange _) as [e | r]; [destruct e |]; reflexivity.
Qed.

(** Steps through [place_order] once the validated fields are known. *)
Ltac place_order_steps Hall :=
  unfold place_order, format_order_summary, Orders.logger, bind, getitem, get,
    try_except;
  rewrite Hall;
  repeat first
    [ rewrite lookup_insert_eq
    | rewrite lookup_insert_ne by done ];
  unfold ret, log; simpl.

(** C2. Once the inputs have validated to the record [v], [place_order]
    makes one call of the client. For the type [MARKET] it is
    [place_market_order] with the symbol, the side and the quantity of
    [v], and [BinanceClient] sends one request, which names these three
    and the type and has no price. For the type [LIMIT] it is
    [place_limit_order] with the symbol, the side, the quantity and the
    price of [v], and [BinanceClient] sends one request, which names these
    four, the type and the time in force [GTC]. Clients that agree on
    that one call give the same run. *)
Theorem place_order_dispatch
    (exchange : kwargs -> exn + gmap string pyval)
    (symbol side order_type quantity price : pyval) (w : world)
    (v : gmap string pyval) (w1 : world) :
  validate_all_inputs symbol side order_type quantity price w = (Ok v, w1) ->
  let run c := place_order c symbol side order_type quantity price w in
  let s := get v "symbol" in
  let sd := get v "side" in
  let q := get v "quantity" in
  let p := get v "price" in
  (get v "order_type" = PyStr "MARKET" /\
   p = PyNone /\
   requests (snd (run (BinanceClient exchange))) =
     (requests w ++
      [[("symbol", s); ("side", sd); ("type", PyStr "MARKET");
        ("quantity", q)]])%list /\
   (forall c c',
      place_market_order c s sd q = place_market_order c' s sd q ->
      run c = run c'))
  \/
  (get v "order_type" = PyStr "LIMIT" /\
   requests (snd (run (BinanceClient exchange))) =
     (requests w ++
      [[("symbol", s); ("side", sd); ("type", PyStr "LIMIT");
        ("timeInForce", PyStr "GTC"); ("quantity", q); ("price", p)]])%list /\
   (forall c c',
      place_limit_order c s sd q p = place_limit_order c' s sd q p ->
      run c = run c')).
Proof.
  intros Hall. cbv zeta.
  pose proof (log_only_requests _ w
                (validate_all_inputs_log_only
                   symbol side order_type quantity price)) as R.
  rewrite Hall in R. simpl in R.
  destruct (validated_shape _ _ _ _ _ _ _ _ Hall)
    as (s & sd & t & q & p & -> & [[-> ->] | ->]); [left | right].
  - split; [reflexivity |]. split; [reflexivity |]. split.
    + place_order_steps Hall.
      match goal with
      | |- context [binance_place_market_order exchange s sd q ?w2] =>
          pose proof (binance_place_market_order_requests exchange s sd q w2) as Q;
          destruct (binance_place_market_order exchange s sd q w2)
            as [[r | e] w'] eqn:E
      end; simpl in *; [| destruct (is_ValueError e); simpl];
        rewrite Q; by rewrite R.
    + intros c c' Hc. unfold get in Hc.
      repeat first
        [ rewrite lookup_insert_eq in Hc
        | rewrite lookup_insert_ne in Hc by done ].
      simpl in Hc. place_order_steps Hall. by rewrite Hc.
  - split; [reflexivity |]. split.
    + place_order_steps Hall.
      destruct (is_None p); simpl;
        match goal with
        | |- context [binance_place_limit_order ?x ?a ?b ?c ?d ?w2] =>
            pose proof (binance_place_limit_order_requests x a b c d w2) as Q;
            destruct (binance_place_limit_order x a b c d w2)
              as [[r | e] w'] eqn:E
        end; simpl in *; try (destruct (is_ValueError e); simpl);
        rewrite Q; by rewrite R.
    + intros c c' Hc. unfold get in Hc.
      repeat first
        [ rewrite lookup_insert_eq in Hc
        | rewrite lookup_insert_ne in Hc by done ].
      simpl in Hc. place_order_steps Hall.
      destruct (is_None p); simpl; by rewrite Hc.
Qed.

(** The scenario [("ETHUSDT", "SELL", "LIMIT", "0.01", "3500.50")]: one
    request goes out, with all five parameters and [GTC]. *)
Lemma place_order_dispatch_witness :
  exists q p,
    float (PyStr "0.01") = inr q /\
    float (PyStr "3500.50") = inr p /\
    requests
      (snd (place_order (BinanceClient (fun _ => inr ∅))
              (PyStr "ETHUSDT") (PyStr "SELL") (PyStr "LIMIT") (PyStr "0.01")
              (PyStr "3500.50") world0)) =
    [[("symbol", PyStr "ETHUSDT"); ("side", PyStr "SELL");
      ("type", PyStr "LIMIT"); ("timeInForce", PyStr "GTC");
      ("quantity", PyFloat q); ("price", PyFloat p)]].
Proof.
  eexists _, _. split; [vm_compute; reflexivity |].
  split; [vm_compute; reflexivity |].
  assert (is_ok (validate_all_inputs
                   (PyStr "ETHUSDT") (PyStr "SELL") (PyStr "LIMIT")
                   (PyStr "0.01") (PyStr "3500.50") world0) = true) as H
      by (vm_compute; reflexivity).
  apply (run_ok ∅) in H.
  destruct (place_order_dispatch (fun _ => inr ∅) _ _ _ _ _ _ _ _ H)
    as [(Hm & _) | (_ & Hreq & _)].
  - vm_compute in Hm. discriminate.
  - etransitivity; [exact Hreq | vm_compute; reflexivity].
Defined.

(* ===================================================================== *)
(** * Further properties of the validators *)
(* ===================================================================== *)

(** ** What the string validators accept *)

Lemma in_pair_spec x a b : in_pair x a b = true <-> x = a \/ x = b.
Proof.
  unfold in_pair. rewrite orb_true_iff, !String.eqb_eq. reflexivity.
Qed.

Lemma strip_empty : strip "" = "".
Proof. reflexivity. Qed.

(** A value passes the first test of the three string validators exactly
    when it is a string with a character in it. *)
Lemma nonempty_str_spec v :
  (negb (truthy v) || negb (isinstance_str v))%bool = false <->
  exists s, v = PyStr s /\ s <> "".
Proof.
  rewrite orb_false_iff, !negb_false_iff. split.
  - intros [Ht Hi]. destruct v; try discriminate. exists s. split; [done |].
    simpl in Ht. apply negb_true_iff, String.eqb_neq in Ht. exact Ht.
  - intros (s & -> & Hs). simpl. split; [| done].
    apply negb_true_iff, String.eqb_neq. exact Hs.
Qed.

(** [validate_side] accepts exactly the strings that read [BUY] or [SELL]
    once upper-cased and trimmed, and returns that reading. *)
Lemma validate_side_ok_iff (side : pyval) (w : world) r w' :
  validate_side side w = (Ok r, w') <->
  exists s,
    side = PyStr s /\
    (strip (upper s) = "BUY" \/ strip (upper s) = "SELL") /\
    r = PyStr (strip (upper s)) /\
    w' = logged "bot.validators" DEBUG [Lit "Side validated: "; Val r] w.
Proof.
  unfold validate_side. cbv zeta.
  destruct (negb (truthy side) || negb (isinstance_str side))%bool eqn:E.
  - split; [run; discriminate |].
    intros (s & -> & Hs & _). exfalso.
    assert (exists t, PyStr s = PyStr t /\ t <> "") as Hn.
    { exists s. split; [done |]. intros ->. destruct Hs; discriminate. }
    apply nonempty_str_spec in Hn. congruence.
  - apply nonempty_str_spec in E as (s & -> & Hs).
    change (chars (PyStr s)) with s.
    destruct (in_pair (strip (upper s)) "BUY" "SELL") eqn:P; simpl.
    + apply in_pair_spec in P. run. split.
      * intros [= <- <-]. exists s. done.
      * intros (s' & [= <-] & _ & -> & ->). reflexivity.
    + split; [run; discriminate |].
      intros (s' & [= <-] & P' & _). apply in_pair_spec in P'. congruence.
Qed.

(** [validate_order_type] accepts exactly the strings that read [MARKET]
    or [LIMIT] once upper-cased and trimmed, and returns that reading. *)
Lemma validate_order_type_ok_iff (order_type : pyval) (w : world) r w' :
  validate_order_type order_type w = (Ok r, w') <->
  exists s,
    order_type = PyStr s /\
    (strip (upper s) = "MARKET" \/ strip (upper s) = "LIMIT") /\
    r = PyStr (strip (upper s)) /\
    w' = logged "bot.validators" DEBUG [Lit "Order type validated: "; Val r] w.
Proof.
  unfold validate_order_type. cbv zeta.
  destruct (negb (truthy order_type) || negb (isinstance_str order_type))%bool
    eqn:E.
  - split; [run; discriminate |].
    intros (s & -> & Hs & _). exfalso.
    assert (exists t, PyStr s = PyStr t /\ t <> "") as Hn.
    { exists s. split; [done |]. intros ->. destruct Hs; discriminate. }
    apply nonempty_str_spec in Hn. congruence.
  - apply nonempty_str_spec in E as (s & -> & Hs).
    change (chars (PyStr s)) with s.
    destruct (in_pair (strip (upper s)) "MARKET" "LIMIT") eqn:P; simpl.
    + apply in_pair_spec in P. run. split.
      * intros [= <- <-]. exists s. done.
      * intros (s' & [= <-] & _ & -> & ->). reflexivity.
    + split; [run; discriminate |].
      intros (s' & [= <-] & P' & _). apply in_pair_spec in P'. congruence.
Qed.

Lemma any_upper_alnum_upper u :
  any_char (fun c => negb (is_upper_alnum c)) (upper u) = any_char non_alnum u.
Proof.
  induction u as [| c r IH]; simpl; [reflexivity |].
  unfold non_alnum at 1. by rewrite upper_alnum_upper_char, IH.
Qed.

Lemma length_upper u : String.length (upper u) = String.length u.
Proof. induction u as [| c r IH]; simpl; congruence. Qed.

(** [span] takes the whole string when every character passes the test. *)
Lemma span_all p t :
  any_char (fun c => negb (p c)) t = false -> span p t = (t, "").
Proof.
  induction t as [| c r IH]; simpl; [reflexivity |].
  intros H. apply orb_false_iff in H as [Hc Hr].
  apply negb_false_iff in Hc. by rewrite Hc, (IH Hr).
Qed.

(** The pattern accepts a string of one or more characters of the class. *)
Lemma re_match_accepts t :
  any_char (fun c => negb (is_upper_alnum c)) t = false ->
  t <> "" ->
  re_match_upper_alnum t = true.
Proof.
  intros H Hne. unfold re_match_upper_alnum. rewrite (span_all _ _ H).
  destruct t; [contradiction | reflexivity].
Qed.

(** On a trimmed string the pattern decides whether every character is in
    the class. *)
Lemma re_match_trimmed x :
  re_match_upper_alnum (rstrip x) = true ->
  any_char (fun c => negb (is_upper_alnum c)) (rstrip x) = false.
Proof.
  intros H.
  destruct (any_char _ (rstrip x)) eqn:E; [| reflexivity].
  apply re_match_rejects in E. congruence.
Qed.

Lemma re_match_nonempty t : re_match_upper_alnum t = true -> t <> "".
Proof. intros H ->. discriminate. Qed.

(** [validate_symbol] accepts exactly the strings that, once trimmed,
    have two characters or more, all of them in [[A-Za-z0-9]]; it returns
    the trimmed string in upper case. *)
Lemma validate_symbol_ok_iff (symbol : pyval) (w : world) r w' :
  validate_symbol symbol w = (Ok r, w') <->
  exists s,
    symbol = PyStr s /\
    any_char non_alnum (strip s) = false /\
    2 <= len (strip s) /\
    r = PyStr (upper (strip s)) /\
    w' = logged "bot.validators" DEBUG [Lit "Symbol validated: "; Val r] w.
Proof.
  unfold validate_symbol. cbv zeta.
  destruct (negb (truthy symbol) || negb (isinstance_str symbol))%bool eqn:E.
  - split; [run; discriminate |].
    intros (s & -> & _ & Hl & _). exfalso.
    assert (exists t, PyStr s = PyStr t /\ t <> "") as Hn.
    { exists s. split; [done |]. intros ->. unfold len in Hl. simpl in Hl. lia. }
    apply nonempty_str_spec in Hn. congruence.
  - apply nonempty_str_spec in E as (s & -> & Hs).
    change (chars (PyStr s)) with s. rewrite strip_upper.
    assert (len (upper (strip s)) = len (strip s)) as Hlen
        by (unfold len; by rewrite length_upper).
    destruct (re_match_upper_alnum (upper (strip s))) eqn:R; simpl.
    + assert (any_char non_alnum (strip s) = false) as Hany.
      { rewrite <- any_upper_alnum_upper. unfold strip in *.
        rewrite <- rstrip_upper in *. by apply re_match_trimmed. }
      rewrite Hlen.
      destruct (len (strip s) <? 2) eqn:L.
      * split; [run; discriminate |].
        intros (s' & [= <-] & _ & Hl & _). apply Z.ltb_lt in L. lia.
      * apply Z.ltb_ge in L. run. split.
        -- intros [= <- <-]. exists s. done.
        -- intros (s' & [= <-] & _ & _ & -> & ->). reflexivity.
    + split; [run; discriminate |].
      intros (s' & [= <-] & Hany & Hl & _). exfalso.
      rewrite re_match_accepts in R; [discriminate | |].
      * by rewrite any_upper_alnum_upper.
      * intros H0. rewrite H0 in Hlen. unfold len in *. simpl in *. lia.
Qed.

(** ** Normalizing twice *)

Lemma space_not_alnum c : isspace c = true -> non_alnum c = true.
Proof.
  destruct c as [[] [] [] [] [] [] [] []]; vm_compute; intros H;
    first [reflexivity | discriminate H].
Qed.

Lemma upper_char_idem c : upper_char (upper_char c) = upper_char c.
Proof. by_cases_on_char c. Qed.

Lemma alnum_upper_char c : is_alnum (upper_char c) = is_alnum c.
Proof. by_cases_on_char c. Qed.

Lemma upper_idem u : upper (upper u) = upper u.
Proof.
  induction u as [| c r IH]; simpl; [reflexivity |].
  by rewrite upper_char_idem, IH.
Qed.

Lemma any_non_alnum_upper_eq u :
  any_char non_alnum (upper u) = any_char non_alnum u.
Proof.
  induction u as [| c r IH]; simpl; [reflexivity |].
  unfold non_alnum at 1 3. by rewrite alnum_upper_char, IH.
Qed.

(** Trimming leaves a string of letters and digits alone. *)
Lemma lstrip_alnum u : any_char non_alnum u = false -> lstrip u = u.
Proof.
  destruct u as [| c r]; simpl; [reflexivity |].
  intros H. apply orb_false_iff in H as [Hc _].
  destruct (isspace c) eqn:S; [| reflexivity].
  apply space_not_alnum in S. congruence.
Qed.

Lemma rstrip_alnum u : any_char non_alnum u = false -> rstrip u = u.
Proof.
  induction u as [| c r IH]; simpl; [reflexivity |].
  intros H. apply orb_false_iff in H as [Hc Hr]. rewrite (IH Hr).
  destruct r; [| reflexivity].
  destruct (isspace c) eqn:S; [| reflexivity].
  apply space_not_alnum in S. congruence.
Qed.

Lemma strip_alnum u : any_char non_alnum u = false -> strip u = u.
Proof.
  intros H. unfold strip. rewrite (lstrip_alnum u H). by apply rstrip_alnum.
Qed.

(** A symbol [validate_symbol] returned validates to itself. *)
Lemma validate_symbol_again (symbol : pyval) (w : world) r w' :
  validate_symbol symbol w = (Ok r, w') ->
  forall w2,
    validate_symbol r w2 =
    (Ok r, logged "bot.validators" DEBUG [Lit "Symbol validated: "; Val r] w2).
Proof.
  intros H w2.
  apply validate_symbol_ok_iff in H as (s & -> & Hany & Hlen & -> & _).
  apply validate_symbol_ok_iff. exists (upper (strip s)).
  assert (any_char non_alnum (upper (strip s)) = false) as Hu
      by (by rewrite any_non_alnum_upper_eq).
  rewrite (strip_alnum _ Hu), upper_idem.
  repeat split; try done.
  unfold len in *. by rewrite length_upper.
Qed.

(** ** What the number validators accept *)

(** A float that is not [<= 0] is NaN or strictly positive, and
    conversely. *)
Lemma float_not_le_zero f :
  float_le_zero f = false <-> f = S754_nan \/ float_is_positive f = true.
Proof.
  destruct f as [s | [] | | [] m e]; vm_compute; split; intros H;
    first [ discriminate H | reflexivity | by left | by right
          | destruct H; discriminate ].
Qed.

(** [validate_quantity] accepts exactly the values [float] converts to a
    float that is NaN or strictly positive, and returns that float. *)
Lemma validate_quantity_ok_iff (quantity : pyval) (w : world) r w' :
  validate_quantity quantity w = (Ok r, w') <->
  exists f,
    float quantity = inr f /\
    (f = S754_nan \/ float_is_positive f = true) /\
    r = PyFloat f /\
    w' = logged "bot.validators" DEBUG [Lit "Quantity validated: "; Val r] w.
Proof.
  unfold validate_quantity. run.
  destruct (float quantity) as [e | f] eqn:F; simpl.
  - split; [destruct (is_Type_or_ValueError e); discriminate |].
    intros (f & [=] & _).
  - destruct (float_le_zero f) eqn:L; simpl.
    + split; [discriminate |].
      intros (f' & [= <-] & H & _). apply float_not_le_zero in H. congruence.
    + apply float_not_le_zero in L. split.
      * intros [= <- <-]. exists f. done.
      * intros (f' & [= <-] & _ & -> & ->). reflexivity.
Qed.


(** For a [LIMIT] order [validate_price] accepts exactly the prices
    [float] converts to a float that is NaN or strictly positive, and
    returns that float. *)
Lemma validate_price_LIMIT_ok_iff (price : pyval) (w : world) r w' :
  validate_price price (PyStr "LIMIT") w = (Ok r, w') <->
  exists f,
    float price = inr f /\
    (f = S754_nan \/ float_is_positive f = true) /\
    r = PyFloat f /\
    w' = logged "bot.validators" DEBUG [Lit "Price validated: "; Val r] w.
Proof.
  unfold validate_price. simpl eq_str. cbv iota.
  destruct (is_None price) eqn:N.
  - destruct price; try discriminate. run.
    split; [discriminate | intros (f & [=] & _)].
  - run. destruct (float price) as [e | f] eqn:F; simpl.
    + split; [destruct (is_Type_or_ValueError e); discriminate |].
      intros (f & [=] & _).
    + destruct (float_le_zero f) eqn:L; simpl.
      * split; [discriminate |].
        intros (f' & [= <-] & H & _). apply float_not_le_zero in H. congruence.
      * apply float_not_le_zero in L. split.
        -- intros [= <- <-]. exists f. done.
        -- intros (f' & [= <-] & _ & -> & ->). reflexivity.
Qed.

(** ** The validated record *)

(** A computation that only logs and succeeds in one world succeeds with
    the same value in every world. *)
Lemma log_only_ok {A} (m : M A) wa a wa' :
  log_only m -> m wa = (Ok a, wa') ->
  forall w, m w = (Ok a, World (logs w ++ logs (snd (m world0))) (requests w)).
Proof.
  intros H Ha w. rewrite (H w). f_equal.
  pose proof (log_only_fst m wa H) as F. rewrite Ha in F. simpl in F. done.
Qed.

(** A successful [validate_all_inputs] is five successful validators, run
    in a row, and the record of their results. *)
Lemma validate_all_inputs_ok_inv symbol side order_type quantity price w v w' :
  validate_all_inputs symbol side order_type quantity price w = (Ok v, w') ->
  exists v1 v2 v3 v4 v5 w0 w1 w2 w3 w4 w5,
    validate_symbol symbol w0 = (Ok v1, w1) /\
    validate_side side w1 = (Ok v2, w2) /\
    validate_order_type order_type w2 = (Ok v3, w3) /\
    validate_quantity quantity w3 = (Ok v4, w4) /\
    validate_price price v3 w4 = (Ok v5, w5) /\
    v = <["price" := v5]>
          (<["quantity" := v4]>
             (<["order_type" := v3]> (<["side" := v2]> (<["symbol" := v1]> ∅)))).
Proof.
  unfold validate_all_inputs, Validators.logger, bind, try_except, log, raise.
  cbv zeta.
  match goal with |- context [validate_symbol symbol ?w0] =>
    set (u0 := w0);
    destruct (validate_symbol symbol u0) as [[v1 | e] w1] eqn:E1
  end; [| destruct (is_ValueError e); discriminate].
  destruct (validate_side side w1) as [[v2 | e] w2] eqn:E2;
    [| destruct (is_ValueError e); discriminate].
  destruct (validate_order_type order_type w2) as [[v3 | e] w3] eqn:E3;
    [| destruct (is_ValueError e); discriminate].
  destruct (validate_quantity quantity w3) as [[v4 | e] w4] eqn:E4;
    [| destruct (is_ValueError e); discriminate].
  unfold getitem. rewrite lookup_insert_ne, lookup_insert_eq by done.
  unfold ret.
  destruct (validate_price price v3 w4) as [[v5 | e] w5] eqn:E5;
    [| destruct (is_ValueError e); discriminate].
  intros [= <- _].
  exists v1, v2, v3, v4, v5, u0, w1, w2, w3, w4, w5. done.
Qed.

(** Conversely, five validators that succeed, each somewhere, make
    [validate_all_inputs] succeed everywhere with their results. *)
Lemma validate_all_inputs_ok_intro
    symbol side order_type quantity price v1 v2 v3 v4 v5 :
  (exists wa wb, validate_symbol symbol wa = (Ok v1, wb)) ->
  (exists wa wb, validate_side side wa = (Ok v2, wb)) ->
  (exists wa wb, validate_order_type order_type wa = (Ok v3, wb)) ->
  (exists wa wb, validate_quantity quantity wa = (Ok v4, wb)) ->
  (exists wa wb, validate_price price v3 wa = (Ok v5, wb)) ->
  forall w,
    fst (validate_all_inputs symbol side order_type quantity price w) =
    Ok (<["price" := v5]>
          (<["quantity" := v4]>
             (<["order_type" := v3]> (<["side" := v2]> (<["symbol" := v1]> ∅))))).
Proof.
  intros (a1 & b1 & H1) (a2 & b2 & H2) (a3 & b3 & H3) (a4 & b4 & H4)
         (a5 & b5 & H5) w.
  unfold validate_all_inputs, Validators.logger, bind, try_except, log, raise.
  cbv zeta.
  rewrite (log_only_ok _ _ _ _ (validate_symbol_log_only symbol) H1).
  rewrite (log_only_ok _ _ _ _ (validate_side_log_only side) H2).
  rewrite (log_only_ok _ _ _ _ (validate_order_type_log_only order_type) H3).
  rewrite (log_only_ok _ _ _ _ (validate_quantity_log_only quantity) H4).
  unfold getitem. rewrite lookup_insert_ne, lookup_insert_eq by done.
  unfold ret.
  rewrite (log_only_ok _ _ _ _ (validate_price_log_only price v3) H5).
  reflexivity.
Qed.

(** The five lookups of a validated record. *)
Lemma validated_lookups (v1 v2 v3 v4 v5 : pyval) :
  let v : gmap string pyval :=
    <["price" := v5]>
      (<["quantity" := v4]>
         (<["order_type" := v3]> (<["side" := v2]> (<["symbol" := v1]> ∅)))) in
  v !! "symbol" = Some v1 /\ v !! "side" = Some v2 /\
  v !! "order_type" = Some v3 /\ v !! "quantity" = Some v4 /\
  v !! "price" = Some v5 /\
  dom v = list_to_set ["symbol"; "side"; "order_type"; "quantity"; "price"].
Proof. cbv zeta. repeat split; vm_compute; reflexivity. Qed.

(** The price of an order that is not a [LIMIT] order is [None]. *)
Lemma validate_price_MARKET_ok price w r w' :
  validate_price price (PyStr "MARKET") w = (Ok r, w') -> r = PyNone.
Proof.
  unfold validate_price. simpl eq_str. cbv iota.
  destruct (is_None price); run; congruence.
Qed.

(** The record [validate_all_inputs] returns has exactly the five fields:
    a symbol of two or more characters of [[A-Z0-9]], the side [BUY] or
    [SELL], a quantity that is a positive float or NaN, and either the type
    [MARKET] with the price [None] or the type [LIMIT] with a price that
    is a positive float or NaN. *)
Theorem validated_record_invariant
    (symbol side order_type quantity price : pyval) (w : world) v w' :
  validate_all_inputs symbol side order_type quantity price w = (Ok v, w') ->
  dom v = list_to_set ["symbol"; "side"; "order_type"; "quantity"; "price"] /\
  (exists t,
     v !! "symbol" = Some (PyStr t) /\
     any_char (fun c => negb (is_upper_alnum c)) t = false /\ 2 <= len t) /\
  (v !! "side" = Some (PyStr "BUY") \/ v !! "side" = Some (PyStr "SELL")) /\
  (exists f,
     v !! "quantity" = Some (PyFloat f) /\
     (f = S754_nan \/ float_is_positive f = true)) /\
  (v !! "order_type" = Some (PyStr "MARKET") /\ v !! "price" = Some PyNone \/
   v !! "order_type" = Some (PyStr "LIMIT") /\
   exists px,
     v !! "price" = Some (PyFloat px) /\
     (px = S754_nan \/ float_is_positive px = true)).
Proof.
  intros H.
  apply validate_all_inputs_ok_inv in H
    as (v1 & v2 & v3 & v4 & v5 & w0 & w1 & w2 & w3 & w4 & w5 &
        H1 & H2 & H3 & H4 & H5 & ->).
  destruct (validated_lookups v1 v2 v3 v4 v5) as (L1 & L2 & L3 & L4 & L5 & D).
  rewrite L1, L2, L3, L4, L5, D. clear L1 L2 L3 L4 L5 D.
  apply validate_symbol_ok_iff in H1 as (s & _ & Hany & Hlen & -> & _).
  apply validate_side_ok_iff in H2 as (s2 & _ & Hs2 & -> & _).
  apply validate_order_type_ok_iff in H3 as (s3 & _ & Hs3 & -> & _).
  apply validate_quantity_ok_iff in H4 as (f & _ & Hf & -> & _).
  split; [reflexivity |]. split.
  { eexists. split; [reflexivity |]. split.
    - by rewrite any_upper_alnum_upper.
    - unfold len in *. by rewrite length_upper. }
  split; [destruct Hs2 as [-> | ->]; auto |].
  split; [eauto |].
  destruct Hs3 as [E | E]; rewrite E in *.
  - left. apply validate_price_MARKET_ok in H5 as ->. done.
  - right. apply validate_price_LIMIT_ok_iff in H5 as (px & _ & Hpx & -> & _).
    eauto.
Qed.

Lemma validated_record_invariant_witness :
  exists v : gmap string pyval,
    v !! "order_type" = Some (PyStr "LIMIT") /\
    exists px,
      v !! "price" = Some (PyFloat px) /\
      (px = S754_nan \/ float_is_positive px = true).
Proof.
  assert (is_ok (validate_all_inputs
                   (PyStr "ethusdt") (PyStr "sell") (PyStr "limit")
                   (PyStr "0.01") (PyStr "3500.50") world0) = true) as H
      by (vm_compute; reflexivity).
  apply (run_ok ∅) in H. eexists.
  destruct (validated_record_invariant _ _ _ _ _ _ _ _ H)
    as (_ & _ & _ & _ & [[Hm _] | Hl]); [| exact Hl].
  vm_compute in Hm. discriminate.
Defined.

(** Validating the fields of a validated record gives the same record
    back: normalization is idempotent. *)
Theorem validate_all_inputs_idempotent
    (symbol side order_type quantity price : pyval) (w : world) v w' :
  validate_all_inputs symbol side order_type quantity price w = (Ok v, w') ->
  forall w2,
    fst (validate_all_inputs
           (get v "symbol") (get v "side") (get v "order_type")
           (get v "quantity") (get v "price") w2) = Ok v.
Proof.
  intros H w2.
  apply validate_all_inputs_ok_inv in H
    as (v1 & v2 & v3 & v4 & v5 & w0 & w1 & u2 & w3 & w4 & w5 &
        H1 & H2 & H3 & H4 & H5 & ->).
  destruct (validated_lookups v1 v2 v3 v4 v5) as (L1 & L2 & L3 & L4 & L5 & _).
  unfold get. rewrite L1, L2, L3, L4, L5. simpl.
  apply validate_all_inputs_ok_intro.
  - eexists world0, _. exact (validate_symbol_again _ _ _ _ H1 world0).
  - apply validate_side_ok_iff in H2 as (s2 & _ & [E | E] & -> & _);
      rewrite E; eexists world0, _; vm_compute; reflexivity.
  - apply validate_order_type_ok_iff in H3 as (s3 & _ & [E | E] & -> & _);
      rewrite E; eexists world0, _; vm_compute; reflexivity.
  - apply validate_quantity_ok_iff in H4 as (f & _ & Hf & -> & _).
    eexists world0, _. apply validate_quantity_ok_iff. exists f. done.
  - apply validate_order_type_ok_iff in H3 as (s3 & _ & [E | E] & -> & _);
      rewrite E in *.
    + apply validate_price_MARKET_ok in H5 as ->.
      eexists world0, _. vm_compute. reflexivity.
    + apply validate_price_LIMIT_ok_iff in H5 as (px & _ & Hpx & -> & _).
      eexists world0, _. apply validate_price_LIMIT_ok_iff. exists px. done.
Qed.

Lemma validate_all_inputs_idempotent_witness :
  exists v,
    fst (validate_all_inputs
           (PyStr " btcusdt ") (PyStr "buy") (PyStr "Market") (PyStr "1e-3")
           (PyFloat f_0_001) world0) = Ok v /\
    fst (validate_all_inputs
           (get v "symbol") (get v "side") (get v "order_type")
           (get v "quantity") (get v "price") world0) = Ok v.
Proof.
  assert (is_ok (validate_all_inputs
                   (PyStr " btcusdt ") (PyStr "buy") (PyStr "Market")
                   (PyStr "1e-3") (PyFloat f_0_001) world0) = true) as H
      by (vm_compute; reflexivity).
  apply (run_ok ∅) in H. eexists. split.
  - rewrite H at 1. reflexivity.
  - exact (validate_all_inputs_idempotent _ _ _ _ _ _ _ _ H world0).
Defined.

(** ** How validation fails *)









(* ===================================================================== *)
(** * Further properties of the client and the order service *)
(* ===================================================================== *)

(** ** The summary of a request *)

(** With the four required fields present, [format_order_summary] raises
    nothing and leaves the world alone; the price is mentioned when the
    record has one that is not [None]. *)
Theorem format_order_summary_ok
    (order_params : gmap string pyval) (symbol side order_type quantity : pyval)
    (w : world) :
  order_params !! "symbol" = Some symbol ->
  order_params !! "side" = Some side ->
  order_params !! "order_type" = Some order_type ->
  order_params !! "quantity" = Some quantity ->
  format_order_summary order_params w =
  (Ok ([Lit "Symbol="; Val symbol; Lit ", Side="; Val side; Lit ", Type=";
        Val order_type; Lit ", Quantity="; Val quantity] ++
       match order_params !! "price" with
       | Some price =>
           if is_None price then [] else [Lit ", Price="; Val price]
       | None => []
       end)%list,
   w).
Proof.
  intros H1 H2 H3 H4.
  unfold format_order_summary, bind, getitem, get, ret.
  rewrite H1, H2, H3, H4.
  destruct (order_params !! "price") as [p |]; simpl; [| reflexivity].
  destruct (is_None p); reflexivity.
Qed.

Lemma format_order_summary_ok_witness :
  format_order_summary
    (list_to_map
       [("symbol", PyStr "BTCUSDT"); ("side", PyStr "BUY");
        ("order_type", PyStr "MARKET"); ("quantity", PyFloat f_0_001);
        ("price", PyNone)]) world0 =
  (Ok [Lit "Symbol="; Val (PyStr "BTCUSDT"); Lit ", Side="; Val (PyStr "BUY");
       Lit ", Type="; Val (PyStr "MARKET"); Lit ", Quantity=";
       Val (PyFloat f_0_001)],
   world0).
Proof.
  rewrite (format_order_summary_ok _
             (PyStr "BTCUSDT") (PyStr "BUY") (PyStr "MARKET") (PyFloat f_0_001)
             world0) by (vm_compute; reflexivity).
  vm_compute. reflexivity.
Defined.

(** A record without one of the four required fields makes
    [format_order_summary] raise the [KeyError] of the first one missing,
    in the order symbol, side, order type, quantity. *)
Theorem format_order_summary_KeyError
    (order_params : gmap string pyval) (w : world) (k : string) :
  head (filter (fun k => order_params !! k = None)
          ["symbol"; "side"; "order_type"; "quantity"]) = Some k ->
  format_order_summary order_params w =
  (Raise (OtherException ("KeyError: " ++ k)), w).
Proof.
  unfold format_order_summary, bind, getitem, raise, ret.
  rewrite !filter_cons, filter_nil.
  repeat case_decide;
    repeat match goal with
           | H : _ !! _ = None |- _ => rewrite H; clear H
           | H : _ !! _ <> None |- _ =>
               let v := fresh "v" in
               let E := fresh "E" in
               destruct (_ !! _) as [v |] eqn:E in H; [| contradiction];
               rewrite ?E; clear H
           end;
    simpl; intros [= <-]; try reflexivity.
Qed.

Lemma format_order_summary_KeyError_witness :
  format_order_summary
    (list_to_map [("symbol", PyStr "BTCUSDT"); ("quantity", PyFloat f_0_001)])
    world0 = (Raise (OtherException "KeyError: side"), world0).
Proof.
  apply (format_order_summary_KeyError
           (list_to_map
              [("symbol", PyStr "BTCUSDT"); ("quantity", PyFloat f_0_001)])
           world0 "side").
  vm_compute. reflexivity.
Defined.

(** ** The client *)

(** Both methods of [BinanceClient] hand the exchange's answer on: its
    response as it is, or the exception it raised, after an [ERROR] record
    of [bot.client]. *)
Theorem binance_client_mirrors_exchange
    (exchange : kwargs -> exn + gmap string pyval)
    (symbol side quantity price : pyval) (w : world) :
  let market :=
    [("symbol", symbol); ("side", side); ("type", PyStr "MARKET");
     ("quantity", quantity)] in
  let limit :=
    [("symbol", symbol); ("side", side); ("type", PyStr "LIMIT");
     ("timeInForce", PyStr "GTC"); ("quantity", quantity); ("price", price)] in
  let is_client_error (r : option log_record) :=
    match r with
    | Some r => log_name r = "bot.client" /\ log_level r = ERROR
    | None => False
    end in
  let m := binance_place_market_order exchange symbol side quantity w in
  let l := binance_place_limit_order exchange symbol side quantity price w in
  match exchange market with
  | inr r => fst m = Ok r
  | inl e => fst m = Raise e /\ is_client_error (last (logs (snd m)))
  end /\
  match exchange limit with
  | inr r => fst l = Ok r
  | inl e => fst l = Raise e /\ is_client_error (last (logs (snd l)))
  end.
Proof.
  cbv zeta.
  unfold binance_place_market_order, binance_place_limit_order, try_except,
    bind, futures_create_order, Client.logger, log.
  simpl. split.
  - destruct (exchange _) as [e | r]; [| reflexivity].
    destruct e; simpl; (split; [reflexivity |]); rewrite last_snoc; done.
  - destruct (exchange _) as [e | r]; [| reflexivity].
    destruct e; simpl; (split; [reflexivity |]); rewrite last_snoc; done.
Qed.

(** ** The order service *)

(** A run of [place_order] on inputs that validate to [v]: one request
    goes out, and the outcome is the exchange's answer to it. *)
Lemma place_order_run_ok
    (exchange : kwargs -> exn + gmap string pyval)
    (symbol side order_type quantity price : pyval) (w : world) v w1 :
  validate_all_inputs symbol side order_type quantity price w = (Ok v, w1) ->
  let kw :=
    if eq_str (get v "order_type") "MARKET" then
      [("symbol", get v "symbol"); ("side", get v "side");
       ("type", PyStr "MARKET"); ("quantity", get v "quantity")]
    else
      [("symbol", get v "symbol"); ("side", get v "side");
       ("type", PyStr "LIMIT"); ("timeInForce", PyStr "GTC");
       ("quantity", get v "quantity"); ("price", get v "price")] in
  let run :=
    place_order (BinanceClient exchange)
      symbol side order_type quantity price w in
  requests (snd run) = (requests w ++ [kw])%list /\
  match exchange kw with
  | inr r => fst run = Ok (extract_order_details r)
  | inl e =>
      fst run = Raise e /\
      last (logs (snd run)) =
        Some (LogRecord "bot.orders" ERROR
                (Lit (if is_ValueError e then "Validation error: "
                      else "Order placement failed: ") :: exn_str e))
  end.
Proof.
  intros Hall. cbv zeta.
  pose proof (log_only_requests _ w
                (validate_all_inputs_log_only
                   symbol side order_type quantity price)) as R.
  rewrite Hall in R. simpl in R.
  destruct (validated_shape _ _ _ _ _ _ _ _ Hall)
    as (s & sd & t & q & p & -> & [[-> ->] | ->]).
  - place_order_steps Hall.
    unfold binance_place_market_order, try_except, bind, futures_create_order,
      Client.logger, log.
    simpl. destruct (exchange _) as [e | r]; simpl.
    + destruct e; simpl; rewrite R;
        (split; [reflexivity |]); (split; [reflexivity |]);
        apply last_snoc.
    + rewrite R. done.
  - place_order_steps Hall.
    destruct (is_None p); simpl;
      unfold binance_place_limit_order, try_except, bind, futures_create_order,
        Client.logger, log;
      simpl; (destruct (exchange _) as [e | r]; simpl;
              [ destruct e; simpl; rewrite R;
                (split; [reflexivity |]); (split; [reflexivity |]);
                apply last_snoc
              | rewrite R; done ]).
Qed.

(** With [BinanceClient], [place_order] on inputs that validate returns
    the normalized response of the exchange to its one request, or raises
    the exception the exchange raised, unchanged; the last record of the
    log then is the error of [bot.orders], which reads [Validation error]
    when the exchange raised a [ValueError]. *)
Theorem place_order_outcome
    (exchange : kwargs -> exn + gmap string pyval)
    (symbol side order_type quantity price : pyval) (w : world) v w1 :
  validate_all_inputs symbol side order_type quantity price w = (Ok v, w1) ->
  let kw :=
    if eq_str (get v "order_type") "MARKET" then
      [("symbol", get v "symbol"); ("side", get v "side");
       ("type", PyStr "MARKET"); ("quantity", get v "quantity")]
    else
      [("symbol", get v "symbol"); ("side", get v "side");
       ("type", PyStr "LIMIT"); ("timeInForce", PyStr "GTC");
       ("quantity", get v "quantity"); ("price", get v "price")] in
  let run :=
    place_order (BinanceClient exchange)
      symbol side order_type quantity price w in
  match exchange kw with
  | inr r => fst run = Ok (extract_order_details r)
  | inl e =>
      fst run = Raise e /\
      last (logs (snd run)) =
        Some (LogRecord "bot.orders" ERROR
                (Lit (if is_ValueError e then "Validation error: "
                      else "Order placement failed: ") :: exn_str e))
  end.
Proof.
  intros Hall. cbv zeta.
  pose proof (place_order_run_ok exchange _ _ _ _ _ _ _ _ Hall) as H.
  cbv zeta in H. exact (proj2 H).
Qed.

Lemma place_order_outcome_witness :
  fst (place_order
         (BinanceClient (fun _ => inl (BinanceAPIException (-2019) "Margin is insufficient.")))
         (PyStr "BTCUSDT") (PyStr "BUY") (PyStr "MARKET") (PyFloat f_0_001)
         PyNone world0) =
  Raise (BinanceAPIException (-2019) "Margin is insufficient.").
Proof.
  assert (is_ok (validate_all_inputs
                   (PyStr "BTCUSDT") (PyStr "BUY") (PyStr "MARKET")
                   (PyFloat f_0_001) PyNone world0) = true) as H
      by (vm_compute; reflexivity).
  apply (run_ok ∅) in H.
  pose proof (place_order_outcome
                (fun _ => inl (BinanceAPIException (-2019) "Margin is insufficient."))
                _ _ _ _ _ _ _ _ H) as O.
  cbv zeta beta in O. exact (proj1 O).
Defined.

(** A call of [place_order] with [BinanceClient] sends at most one
    request, and none exactly when validation raised. *)
Theorem place_order_at_most_one_request
    (exchange : kwargs -> exn + gmap string pyval)
    (symbol side order_type quantity price : pyval) (w : world) :
  exists kws,
    requests
      (snd (place_order (BinanceClient exchange)
              symbol side order_type quantity price w)) =
      (requests w ++ kws)%list /\
    (length kws <= 1)%nat /\
    (kws = [] <->
     exists e w',
       validate_all_inputs symbol side order_type quantity price w =
       (Raise e, w')).
Proof.
  destruct (validate_all_inputs symbol side order_type quantity price w)
    as [[v | e] w1] eqn:Hall.
  - destruct (place_order_run_ok exchange _ _ _ _ _ _ _ _ Hall) as [Hreq _].
    cbv zeta in Hreq. eexists [_]. split; [exact Hreq |].
    split; [simpl; lia |].
    split; [discriminate | intros (e & w' & [=])].
  - exists []. split.
    + pose proof (log_only_requests _ w
                    (validate_all_inputs_log_only
                       symbol side order_type quantity price)) as R.
      rewrite Hall in R. simpl in R.
      unfold place_order, bind, try_except. rewrite Hall.
      destruct (is_ValueError e); simpl; by rewrite app_nil_r.
    + split; [simpl; lia |]. split; eauto.
Qed.

(** ** The normalized response, again *)

(** [extract_order_details] reads the eight fields it names and no other:
    a change of the response elsewhere does not show in the result. *)
Theorem extract_order_details_other_fields
    (response : gmap string pyval) (k : string) (x : pyval) :
  k ∉ ["orderId"; "symbol"; "side"; "type"; "status"; "executedQty";
       "avgPrice"; "updateTime"] ->
  extract_order_details (<[k := x]> response) = extract_order_details response /\
  extract_order_details (delete k response) = extract_order_details response.
Proof.
  intros Hk. unfold extract_order_details, get.
  rewrite !not_elem_of_cons in Hk.
  destruct Hk as (? & ? & ? & ? & ? & ? & ? & ? & _).
  rewrite !lookup_insert_ne, !lookup_delete_ne by done. done.
Qed.

Lemma extract_order_details_other_fields_witness :
  extract_order_details (<["clientOrderId" := PyStr "x1"]> ∅) =
  extract_order_details ∅.
Proof.
  refine (proj1 (extract_order_details_other_fields
                   ∅ "clientOrderId" (PyStr "x1") _)).
  rewrite !not_elem_of_cons. repeat split; try discriminate.
  apply not_elem_of_nil.
Defined.

(* ===================================================================== *)
(** * What each validator accepts *)
(* ===================================================================== *)

(** Reads an acceptance statement off the run of a validator. *)
Ltac from_run m H :=
  let o := fresh "o" in
  let w' := fresh "w'" in
  let E := fresh "E" in
  destruct m as [o w'] eqn:E; simpl in H; subst o.

(** [validate_symbol] accepts exactly the strings whose normalized form,
    upper-cased and then trimmed, has two characters or more, all of them
    in [[A-Z0-9]]; it returns that form. *)
Theorem validate_symbol_accepts_iff (symbol : pyval) (w : world) (r : pyval) :
  fst (validate_symbol symbol w) = Ok r <->
  exists s,
    symbol = PyStr s /\
    any_char (fun c => negb (is_upper_alnum c)) (strip (upper s)) = false /\
    2 <= len (strip (upper s)) /\
    r = PyStr (strip (upper s)).
Proof.
  unfold validate_symbol. cbv zeta.
  destruct (negb (truthy symbol) || negb (isinstance_str symbol))%bool eqn:E.
  - split; [run; discriminate |].
    intros (s & -> & _ & Hl & _). exfalso.
    assert (exists t, PyStr s = PyStr t /\ t <> "") as Hn.
    { exists s. split; [done |]. intros ->. unfold len in Hl. simpl in Hl. lia. }
    apply nonempty_str_spec in Hn. congruence.
  - apply nonempty_str_spec in E as (s & -> & Hs).
    change (chars (PyStr s)) with s.
    destruct (re_match_upper_alnum (strip (upper s))) eqn:R; simpl.
    + assert (any_char (fun c => negb (is_upper_alnum c)) (strip (upper s))
              = false) as Hany
          by (unfold strip in *; by apply re_match_trimmed).
      destruct (len (strip (upper s)) <? 2) eqn:L.
      * split; [run; discriminate |].
        intros (s' & [= <-] & _ & Hl & _). apply Z.ltb_lt in L. lia.
      * apply Z.ltb_ge in L. run. split.
        -- intros [= <-]. exists s. done.
        -- intros (s' & [= <-] & _ & _ & ->). reflexivity.
    + split; [run; discriminate |].
      intros (s' & [= <-] & Hany & Hl & _). exfalso.
      rewrite re_match_accepts in R; [discriminate | exact Hany |].
      intros H0. rewrite H0 in Hl. unfold len in Hl. simpl in Hl. lia.
Qed.

(** [validate_side] accepts exactly the strings that read [BUY] or [SELL]
    once upper-cased and trimmed, and returns that reading. *)
Theorem validate_side_accepts_iff (side : pyval) (w : world) (r : pyval) :
  fst (validate_side side w) = Ok r <->
  exists s,
    side = PyStr s /\ r = PyStr (strip (upper s)) /\
    (r = PyStr "BUY" \/ r = PyStr "SELL").
Proof.
  split.
  - intros H. from_run (validate_side side w) H.
    apply validate_side_ok_iff in E as (s & -> & Hs & -> & _).
    exists s. repeat split. destruct Hs as [-> | ->]; auto.
  - intros (s & -> & -> & Hs).
    erewrite (proj2 (validate_side_ok_iff _ w _ _)); [reflexivity |].
    exists s. repeat split. destruct Hs as [[= ->] | [= ->]]; auto.
Qed.

(** [validate_order_type] accepts exactly the strings that read [MARKET]
    or [LIMIT] once upper-cased and trimmed, and returns that reading. *)
Theorem validate_order_type_accepts_iff
    (order_type : pyval) (w : world) (r : pyval) :
  fst (validate_order_type order_type w) = Ok r <->
  exists s,
    order_type = PyStr s /\ r = PyStr (strip (upper s)) /\
    (r = PyStr "MARKET" \/ r = PyStr "LIMIT").
Proof.
  split.
  - intros H. from_run (validate_order_type order_type w) H.
    apply validate_order_type_ok_iff in E as (s & -> & Hs & -> & _).
    exists s. repeat split. destruct Hs as [-> | ->]; auto.
  - intros (s & -> & -> & Hs).
    erewrite (proj2 (validate_order_type_ok_iff _ w _ _)); [reflexivity |].
    exists s. repeat split. destruct Hs as [[= ->] | [= ->]]; auto.
Qed.

(** [validate_quantity] accepts exactly the values [float] converts to a
    float that is NaN or strictly positive, and returns that float. *)
Theorem validate_quantity_accepts_iff (quantity : pyval) (w : world) (r : pyval) :
  fst (validate_quantity quantity w) = Ok r <->
  exists f,
    float quantity = inr f /\ r = PyFloat f /\
    (f = S754_nan \/ float_is_positive f = true).
Proof.
  split.
  - intros H. from_run (validate_quantity quantity w) H.
    apply validate_quantity_ok_iff in E as (f & ? & ? & ? & _). eauto.
  - intros (f & Hf & -> & Hp).
    erewrite (proj2 (validate_quantity_ok_iff _ w _ _)); [reflexivity |].
    exists f. done.
Qed.

(** For a [LIMIT] order [validate_price] accepts exactly the prices
    [float] converts to a float that is NaN or strictly positive, and
    returns that float; for any other type it accepts every price and
    returns [None]. *)
Theorem validate_price_accepts_iff (price order_type : pyval) (w : world) (r : pyval) :
  fst (validate_price price order_type w) = Ok r <->
  if eq_str order_type "LIMIT" then
    exists f,
      float price = inr f /\ r = PyFloat f /\
      (f = S754_nan \/ float_is_positive f = true)
  else r = PyNone.
Proof.
  destruct (eq_str order_type "LIMIT") eqn:T.
  - apply eq_str_spec in T as ->. split.
    + intros H. from_run (validate_price price (PyStr "LIMIT") w) H.
      apply validate_price_LIMIT_ok_iff in E as (f & ? & ? & ? & _). eauto.
    + intros (f & Hf & -> & Hp).
      erewrite (proj2 (validate_price_LIMIT_ok_iff _ w _ _)); [reflexivity |].
      exists f. done.
  - unfold validate_price. rewrite T.
    destruct (is_None price); run; split; congruence.
Qed.

(** Validation is local: [validate_all_inputs] only appends records to
    the log, the same ones whatever the world it starts in, sends no
    request, and its outcome does not depend on the world. *)
Theorem validate_all_inputs_is_local
    (symbol side order_type quantity price : pyval) :
  exists o l,
    forall w,
      validate_all_inputs symbol side order_type quantity price w =
      (o, World (logs w ++ l) (requests w)).
Proof.
  eexists _, _. intros w.
  apply (validate_all_inputs_log_only symbol side order_type quantity price w).
Qed.
